(** * scipy/_build_utils/_generate_blas_wrapper.py

    A shallow embedding of the BLAS/LAPACK wrapper generator and the
    properties of the text it produces.

    The script builds every wrapper with Python string formatting, keeps
    the generated files in a dict keyed by path, and touches the file
    system only in [make_all].  Strings are [string] (ASCII bytes), the
    dict is a [gmap string string], Python exceptions are the [Raise]
    branch of [result], and [make_all] runs in a small state-and-exception
    monad over a [World] (files with modification times, the writable
    directories, standard output, and a log of the writes performed).
    The two generators are embedded a second time over a store of the
    mutable objects they can reach, to show that they change none of
    them. *)

From Stdlib Require Import ZArith Ascii String List Lia.
From stdpp Require Import base option list strings gmap.

Local Open Scope stdpp_scope.

(** ** Python strings *)

Module PyStr.

(** The newline character ([\n] inside the Python literals). *)
Definition NL : string := String "010"%char EmptyString.

(** [sep.join(parts)]. *)
Fixpoint join (sep : string) (parts : list string) : string :=
  match parts with
  | [] => EmptyString
  | [x] => x
  | x :: rest => x +:+ sep +:+ join sep rest
  end.

(** [''.join(parts)], also used to lay out an f-string as the
    sequence of its literal and interpolated pieces. *)
Fixpoint concat_all (parts : list string) : string :=
  match parts with
  | [] => EmptyString
  | x :: rest => x +:+ concat_all rest
  end.

(** [str.upper()] on ASCII identifiers: [a]..[z] are shifted to
    [A]..[Z], every other byte is kept. *)
Definition upper_char (c : ascii) : ascii :=
  let n := nat_of_ascii c in
  if ((97 <=? n)%nat && (n <=? 122)%nat)%bool then ascii_of_nat (n - 32) else c.

Fixpoint upper (s : string) : string :=
  match s with
  | EmptyString => EmptyString
  | String c s' => String (upper_char c) (upper s')
  end.

(** [s.startswith(p)]. *)
Fixpoint startswith (p s : string) : bool :=
  match p, s with
  | EmptyString, _ => true
  | String a p', String b s' => if decide (a = b) then startswith p' s' else false
  | String _ _, EmptyString => false
  end.

(** [s.endswith(c)] for a one-character suffix. *)
Fixpoint endswith_char (c : ascii) (s : string) : bool :=
  match s with
  | EmptyString => false
  | String a EmptyString => bool_decide (a = c)
  | String _ s' => endswith_char c s'
  end.

(** [needle in hay] for strings. *)
Fixpoint contains (needle hay : string) : bool :=
  startswith needle hay ||
  match hay with
  | EmptyString => false
  | String _ hay' => contains needle hay'
  end.

(** [s.count(c)] for a one-character [c]. *)
Fixpoint count_char (c : ascii) (s : string) : nat :=
  match s with
  | EmptyString => 0%nat
  | String a s' => ((if decide (a = c) then 1 else 0) + count_char c s')%nat
  end.

(** [sum(s.count(c) for s in parts)]. *)
Fixpoint count_in_all (c : ascii) (parts : list string) : nat :=
  match parts with
  | [] => 0%nat
  | x :: rest => (count_char c x + count_in_all c rest)%nat
  end.

(** [os.path.basename] (posixpath): what follows the last slash. *)
Fixpoint basename_go (cur s : string) : string :=
  match s with
  | EmptyString => cur
  | String a s' =>
      if decide (a = "/"%char) then basename_go s' s' else basename_go cur s'
  end.
Definition basename (p : string) : string := basename_go p p.

(** [os.path.join(a, b)] (posixpath) for two components. *)
Definition os_path_join (a b : string) : string :=
  if startswith "/" b then b
  else if bool_decide (a = EmptyString) || endswith_char "/" a then a +:+ b
  else a +:+ "/" +:+ b.

(** [f.readlines()] of a file opened in text mode: [\r\n] and a lone
    [\r] are read as [\n], and every line keeps its terminator. *)
Fixpoint readlines_go (cur : string) (s : string) : list string :=
  match s with
  | EmptyString =>
      if bool_decide (cur = EmptyString) then [] else [String.rev cur]
  | String a s' =>
      if decide (a = "010"%char) then
        String.rev (String "010" cur) :: readlines_go EmptyString s'
      else if decide (a = "013"%char) then
        match s' with
        | String b s'' =>
            if decide (b = "010"%char)
            then readlines_go cur s'
            else String.rev (String "010" cur) :: readlines_go EmptyString s'
        | EmptyString => [String.rev (String "010" cur)]
        end
      else readlines_go (String a cur) s'
  end.
Definition readlines (content : string) : list string :=
  readlines_go EmptyString content.

End PyStr.

(** ** Python exceptions *)

Inductive exn : Type :=
| KeyError (key : string)
| UnboundLocalError (var : string)
| TypeError (msg : string)
| FileNotFoundError (path : string)
| ValueError (msg : string)
| OSError (path : string).

Inductive result (A : Type) : Type :=
| Ok (a : A)
| Raise (e : exn).
Arguments Ok {A} a.
Arguments Raise {A} e.

#[global] Instance result_ret : MRet result := fun A a => Ok a.
#[global] Instance result_bind : MBind result :=
  fun A B k m => match m with Ok a => k a | Raise e => Raise e end.

(** [d[key]] on a dict: a missing key raises [KeyError]. *)
Definition getitem (d : gmap string string) (key : string) : result string :=
  match d !! key with
  | Some v => Ok v
  | None => Raise (KeyError key)
  end.

(** [[d[t] for t in keys]]: the first missing key raises. *)
Fixpoint getitems (d : gmap string string) (keys : list string) : result (list string) :=
  match keys with
  | [] => Ok []
  | t :: rest =>
      v ← getitem d t;
      vs ← getitems d rest;
      Ok (v :: vs)
  end.

(** ** Signatures *)

(** One entry of the list [read_signatures] returns: a dict with the keys
    [name], [return_type], [argnames] and [argtypes]. *)
Module Sig.
Record t : Type := Build {
  name : string;
  return_type : string;
  argnames : list string;
  argtypes : list string
}.
End Sig.

(** ** The names imported from [_wrappers_common]

    [_wrappers_common.py] is not part of the sources at hand.  Its
    constants and the two pure helpers are taken as parameters: every
    theorem below holds for any value of them. *)
Record WrappersCommon : Type := {
  C_PREAMBLE : string;
  C_TYPES : gmap string string;
  CPP_GUARD_BEGIN : string;
  CPP_GUARD_END : string;
  LAPACK_DECLS : string;
  USE_OLD_ACCELERATE : gset string;
  WRAPPED_FUNCS : gset string;
  get_blas_macro_and_name : string → bool → string * string;
  read_signatures : list string → result (list Sig.t)
}.

Section Generator.
Import PyStr.

Context (wc : WrappersCommon).

(** [__file__]: the absolute path of the script. *)
Context (script_file : string).

(** Lines 38-41. *)
Definition C_COMMENT : string :=
  concat_all ["/*"; NL;
              "This file was generated by "; basename script_file; "."; NL;
              "Do not edit this file directly."; NL;
              "*/"; NL; NL].

(** Lines 44-67. *)
Definition generate_decl_wrapper
    (name return_type : string) (argnames argtypes : list string)
    (accelerate : bool) : result string :=
  if bool_decide (name ∈ WRAPPED_FUNCS wc) then Ok EmptyString
  else if accelerate && bool_decide (name ∈ USE_OLD_ACCELERATE wc) then Ok EmptyString
  else
    c_return_type ← getitem (C_TYPES wc) return_type;
    c_argtypes ← getitems (C_TYPES wc) argtypes;
    let param_list :=
      join ", " (zip_with (fun t n => t +:+ " *" +:+ n) c_argtypes argnames) in
    let argnames := join ", " argnames in
    let '(blas_macro, blas_name) := get_blas_macro_and_name wc name accelerate in
    Ok (concat_all
          [NL;
           c_return_type; " "; blas_macro; "("; blas_name; ")("; param_list; ");"; NL;
           c_return_type; " F_FUNC("; name; ","; upper name; ")("; param_list; "){"; NL;
           "    return "; blas_macro; "("; blas_name; ")("; argnames; ");"; NL;
           "}"; NL]).

(** Line 85: the call with the signature unpacked as keyword arguments. *)
Definition generate_decl_wrapper_kw (sig : Sig.t) (accelerate : bool) : result string :=
  generate_decl_wrapper (Sig.name sig) (Sig.return_type sig)
    (Sig.argnames sig) (Sig.argtypes sig) accelerate.

(** Lines 77-80: which [preamble] the two branches bind.  For any other
    [lib_name] the local variable stays unbound. *)
Definition preamble_of (lib_name : string) : option (list string) :=
  if bool_decide (lib_name = "BLAS") then
    Some [C_COMMENT; C_PREAMBLE wc; CPP_GUARD_BEGIN wc]
  else if bool_decide (lib_name = "LAPACK") then
    Some [C_COMMENT; C_PREAMBLE wc; LAPACK_DECLS wc; CPP_GUARD_BEGIN wc]
  else None.

(** Line 83. *)
Definition file_path (outdir : string) (sig : Sig.t) : string :=
  os_path_join outdir (Sig.name sig +:+ ".c").

(** Lines 84-86: the text stored under [file_path].  Reading the unbound
    [preamble] raises before [generate_decl_wrapper] is called. *)
Definition file_text (preamble : option (list string)) (sig : Sig.t)
    (accelerate : bool) : result string :=
  preamble ← match preamble with
             | Some p => Ok p
             | None => Raise (UnboundLocalError "preamble")
             end;
  decl ← generate_decl_wrapper_kw sig accelerate;
  Ok (concat_all (preamble ++ [decl; CPP_GUARD_END wc])).

(** Lines 82-86: the loop, threading the dict [wrappers]. *)
Fixpoint generate_file_wrapper_loop (preamble : option (list string))
    (accelerate : bool) (outdir : string) (sigs : list Sig.t)
    (wrappers : gmap string string) : result (gmap string string) :=
  match sigs with
  | [] => Ok wrappers
  | sig :: rest =>
      text ← file_text preamble sig accelerate;
      generate_file_wrapper_loop preamble accelerate outdir rest
        (<[file_path outdir sig := text]> wrappers)
  end.

(** Lines 70-87. *)
Definition generate_file_wrapper (sigs : list Sig.t) (lib_name : string)
    (accelerate : bool) (outdir : string) : result (gmap string string) :=
  generate_file_wrapper_loop (preamble_of lib_name) accelerate outdir sigs ∅.

End Generator.

(** ** The generator over the objects of the interpreter

    The same two functions once more, statement by statement, over a
    store of the mutable objects they can reach: the containers of
    [_wrappers_common], the lists of a signature, and the lists and the
    dict they create themselves.  A reference is a position in the store;
    a new object goes to its end.  Strings are immutable and stay
    values. *)

Inductive obj : Type :=
| OList (items : list string)
| OSet (members : gset string)
| ODict (entries : gmap string string)
| OSig (name return_type : string) (argnames argtypes : nat).

(** A computation over the store. *)
Definition St (A : Type) : Type := list obj → result A * list obj.

#[global] Instance St_ret : MRet St := fun A a h => (Ok a, h).
#[global] Instance St_bind : MBind St :=
  fun A B k m h =>
    match m h with
    | (Ok a, h') => k a h'
    | (Raise e, h') => (Raise e, h')
    end.

Definition lift_st {A : Type} (r : result A) : St A := fun h => (r, h).

(** A list display, a dict display or a list concatenation: a new object. *)
Definition alloc (o : obj) : St nat := fun h => (Ok (length h), h ++ [o]).

Definition load_list (r : nat) : St (list string) :=
  fun h =>
    match h !! r with
    | Some (OList items) => (Ok items, h)
    | _ => (Raise (TypeError "list expected"), h)
    end.

Definition load_set (r : nat) : St (gset string) :=
  fun h =>
    match h !! r with
    | Some (OSet members) => (Ok members, h)
    | _ => (Raise (TypeError "set expected"), h)
    end.

Definition load_dict (r : nat) : St (gmap string string) :=
  fun h =>
    match h !! r with
    | Some (ODict entries) => (Ok entries, h)
    | _ => (Raise (TypeError "dict expected"), h)
    end.

Definition load_sig (r : nat) : St (string * string * nat * nat) :=
  fun h =>
    match h !! r with
    | Some (OSig name return_type argnames argtypes) =>
        (Ok (name, return_type, argnames, argtypes), h)
    | _ => (Raise (TypeError "signature expected"), h)
    end.

(** [d[key] = value]: the dict object is changed in place. *)
Definition setitem (r : nat) (key value : string) : St unit :=
  fun h =>
    match h !! r with
    | Some (ODict entries) => (Ok tt, <[r := ODict (<[key := value]> entries)]> h)
    | _ => (Raise (TypeError "dict expected"), h)
    end.

(** Where the three containers of [_wrappers_common] live. *)
Record Globals : Type := {
  C_TYPES_ref : nat;
  WRAPPED_FUNCS_ref : nat;
  USE_OLD_ACCELERATE_ref : nat
}.

Section StoreGenerator.
Import PyStr.

(** [wc] gives the string constants and [get_blas_macro_and_name]; the
    three containers are read from the store each time they are named. *)
Context (wc : WrappersCommon) (script_file : string) (g : Globals).

(** Line 58: the comprehension, one lookup in [C_TYPES] per type. *)
Fixpoint getitems_st (keys : list string) : St (list string) :=
  match keys with
  | [] => mret []
  | t :: rest =>
      c_types ← load_dict (C_TYPES_ref g);
      v ← lift_st (getitem c_types t);
      vs ← getitems_st rest;
      mret (v :: vs)
  end.

(** Lines 44-67.  [argnames] and [argtypes] are references to the lists
    of the signature; line 60 binds the local name [argnames] to a new
    string and leaves the list alone. *)
Definition generate_decl_wrapper_st (name return_type : string)
    (argnames argtypes : nat) (accelerate : bool) : St string :=
  wrapped ← load_set (WRAPPED_FUNCS_ref g);
  if bool_decide (name ∈ wrapped) then mret EmptyString
  else
    skip ← (if accelerate
            then legacy ← load_set (USE_OLD_ACCELERATE_ref g);
                 mret (bool_decide (name ∈ legacy))
            else mret false);
    if (skip : bool) then mret EmptyString
    else
      c_types ← load_dict (C_TYPES_ref g);
      c_return_type ← lift_st (getitem c_types return_type);
      types ← load_list argtypes;
      looked_up ← getitems_st types;
      c_argtypes ← alloc (OList looked_up);
      ts ← load_list c_argtypes;
      ns ← load_list argnames;
      let param_list := join ", " (zip_with (fun t n => t +:+ " *" +:+ n) ts ns) in
      names ← load_list argnames;
      let argnames := join ", " names in
      let '(blas_macro, blas_name) := get_blas_macro_and_name wc name accelerate in
      mret (concat_all
              [NL;
               c_return_type; " "; blas_macro; "("; blas_name; ")("; param_list; ");"; NL;
               c_return_type; " F_FUNC("; name; ","; upper name; ")("; param_list; "){"; NL;
               "    return "; blas_macro; "("; blas_name; ")("; argnames; ");"; NL;
               "}"; NL]).

(** Lines 82-86.  [preamble] is the reference lines 77-80 bound, if any;
    [wrappers] is the dict of line 81.  The right-hand side of line 84
    reads [preamble], calls [generate_decl_wrapper], builds the list of
    its text and the closing guard, and concatenates the two lists into
    a third one; [preamble] itself is not changed. *)
Fixpoint generate_file_wrapper_st_loop (preamble : option nat) (wrappers : nat)
    (accelerate : bool) (outdir : string) (sigs : list nat) : St unit :=
  match sigs with
  | [] => mret tt
  | sig :: rest =>
      '(name, return_type, argnames, argtypes) ← load_sig sig;
      let file_path := os_path_join outdir (name +:+ ".c") in
      p ← match preamble with
          | Some p => mret p
          | None => lift_st (Raise (UnboundLocalError "preamble"))
          end;
      decl ← generate_decl_wrapper_st name return_type argnames argtypes accelerate;
      tail ← alloc (OList [decl; CPP_GUARD_END wc]);
      head_items ← load_list p;
      tail_items ← load_list tail;
      whole ← alloc (OList (head_items ++ tail_items));
      parts ← load_list whole;
      _ ← setitem wrappers file_path (concat_all parts);
      generate_file_wrapper_st_loop preamble wrappers accelerate outdir rest
  end.

(** Lines 70-87.  [sigs] is the sequence of references the loop goes
    through; the result is the reference of the dict of line 81. *)
Definition generate_file_wrapper_st (sigs : list nat) (lib_name : string)
    (accelerate : bool) (outdir : string) : St nat :=
  preamble ←
    (if bool_decide (lib_name = "BLAS") then
       p ← alloc (OList [C_COMMENT script_file; C_PREAMBLE wc; CPP_GUARD_BEGIN wc]);
       mret (Some p)
     else if bool_decide (lib_name = "LAPACK") then
       p ← alloc (OList [C_COMMENT script_file; C_PREAMBLE wc; LAPACK_DECLS wc;
                         CPP_GUARD_BEGIN wc]);
       mret (Some p)
     else mret None);
  wrappers ← alloc (ODict ∅);
  _ ← generate_file_wrapper_st_loop preamble wrappers accelerate outdir sigs;
  mret wrappers.

(** The containers of the store hold the values of [wc]. *)
Definition globals_hold (h : list obj) : Prop :=
  h !! C_TYPES_ref g = Some (ODict (C_TYPES wc)) ∧
  h !! WRAPPED_FUNCS_ref g = Some (OSet (WRAPPED_FUNCS wc)) ∧
  h !! USE_OLD_ACCELERATE_ref g = Some (OSet (USE_OLD_ACCELERATE wc)).

(** The reference [r] denotes the signature [sig] in the store. *)
Definition sig_at (h : list obj) (r : nat) (sig : Sig.t) : Prop :=
  ∃ argnames argtypes,
    h !! r = Some (OSig (Sig.name sig) (Sig.return_type sig) argnames argtypes) ∧
    h !! argnames = Some (OList (Sig.argnames sig)) ∧
    h !! argtypes = Some (OList (Sig.argtypes sig)).

(** The dict a run returned, read from the store the run left. *)
Definition dict_of (out : result nat * list obj) : result (gmap string string) :=
  match out with
  | (Ok r, h) =>
      match h !! r with
      | Some (ODict entries) => Ok entries
      | _ => Raise (TypeError "dict expected")
      end
  | (Raise e, _) => Raise e
  end.

End StoreGenerator.

(** ** The file system and the effects of [make_all] *)

(** [os.path.dirname] (posixpath): the path up to its last slash, without
    trailing slashes unless it consists of slashes only. *)
Fixpoint drop_to_slash (s : string) : string :=
  match s with
  | EmptyString => EmptyString
  | String a s' => if decide (a = "/"%char) then s else drop_to_slash s'
  end.

Fixpoint lstrip_slash (s : string) : string :=
  match s with
  | EmptyString => EmptyString
  | String a s' => if decide (a = "/"%char) then lstrip_slash s' else s
  end.

Definition dirname (p : string) : string :=
  let head_reversed := drop_to_slash (String.rev p) in
  let stripped := lstrip_slash head_reversed in
  if bool_decide (stripped = EmptyString) then String.rev head_reversed
  else String.rev stripped.

Record File : Type := { mtime : Z; content : string }.

(** [dirs] holds the directories that exist and can be written to. *)
Record World : Type := {
  fs : gmap string File;
  dirs : gset string;
  stdout : list string;
  clock : Z;
  written : list (string * string)
}.

(** A Python computation: it ends with a value or an exception, and
    leaves a world behind either way. *)
Definition Py (A : Type) : Type := World → result A * World.

#[global] Instance Py_ret : MRet Py := fun A a w => (Ok a, w).
#[global] Instance Py_bind : MBind Py :=
  fun A B k m w =>
    match m w with
    | (Ok a, w') => k a w'
    | (Raise e, w') => (Raise e, w')
    end.

Definition lift {A : Type} (r : result A) : Py A := fun w => (r, w).

(** [with open(path) as f: f.readlines()]. *)
Definition open_readlines (path : string) : Py (list string) :=
  fun w =>
    match fs w !! path with
    | Some f => (Ok (PyStr.readlines (content f)), w)
    | None => (Raise (FileNotFoundError path), w)
    end.

(** [print(msg)]. *)
Definition print (msg : string) : Py unit :=
  fun w =>
    (Ok tt, {| fs := fs w; dirs := dirs w; stdout := stdout w ++ [msg];
               clock := clock w; written := written w |}).

(** Modelled from the spec: [all_newer] of [_wrappers_common] is missing
    from the sources.  Section 4.4: the run is skipped when every output
    file exists and is newer than every input file.  An input that does
    not exist never makes an output stale. *)
Definition newer_than (w : World) (dst : File) (src : string) : bool :=
  match fs w !! src with
  | Some f => bool_decide (mtime f < mtime dst)%Z
  | None => true
  end.

Definition all_newer_in (w : World) (dst_files src_files : list string) : bool :=
  forallb (fun dst =>
             match fs w !! dst with
             | Some d => forallb (newer_than w d) src_files
             | None => false
             end) dst_files.

Definition all_newer (dst_files src_files : list string) : Py bool :=
  fun w => (Ok (all_newer_in w dst_files src_files), w).

(** Modelled from the spec: [write_files] of [_wrappers_common] is missing
    from the sources.  Sections 3, 4.4 and 7: the entries of the dict are
    written one after the other, each verbatim to its path, overwriting
    what was there.  Opening a path whose directory is missing or cannot
    be written to is a fatal I/O error, raised to the caller; the files
    written before it stay written.  A written file gets the current
    time as its modification time; each write is appended to the log. *)
Definition open_write (path text : string) : Py unit :=
  fun w =>
    if bool_decide (dirname path ∈ dirs w) then
      (Ok tt,
       {| fs := <[path := {| mtime := clock w; content := text |}]> (fs w);
          dirs := dirs w;
          stdout := stdout w;
          clock := clock w;
          written := written w ++ [(path, text)] |})
    else (Raise (OSError path), w).

Fixpoint write_all (entries : list (string * string)) : Py unit :=
  match entries with
  | [] => mret tt
  | (path, text) :: rest => _ ← open_write path text; write_all rest
  end.

Definition write_files (to_write : gmap string string) : Py unit :=
  write_all (map_to_list to_write).

(** Line 115: [dict] called with both dicts unpacked as keyword
    arguments.  A key passed twice is a [TypeError]. *)
Definition dict_of_kwargs (a b : gmap string string) : result (gmap string string) :=
  if bool_decide (a ##ₘ b) then Ok (a ∪ b)
  else Raise (TypeError "dict() got multiple values for keyword argument").

Section MakeAll.
Import PyStr.

Context (wc : WrappersCommon) (script_file : string).

(** Lines 90-116.  [script_file] is an absolute, normalised path, so
    [os.path.abspath(__file__)] is [script_file] itself. *)
Definition make_all (outdir blas_signature_file lapack_signature_file : string)
    (accelerate : bool) : Py unit :=
  blas_lines ← open_readlines blas_signature_file;
  lapack_lines ← open_readlines lapack_signature_file;
  blas_sigs ← lift (read_signatures wc blas_lines);
  lapack_sigs ← lift (read_signatures wc lapack_lines);
  let src_files := [script_file; blas_signature_file; lapack_signature_file] in
  let dst_files := file_path outdir <$> (blas_sigs ++ lapack_sigs) in
  fresh ← all_newer dst_files src_files;
  if (fresh : bool) then
    print "scipy/_build_utils/_generate_blas_wrapper.py: all files up-to-date"
  else
    blas_wrappers ← lift (generate_file_wrapper wc script_file
                            blas_sigs "BLAS" accelerate outdir);
    lapack_wrappers ← lift (generate_file_wrapper wc script_file
                              lapack_sigs "LAPACK" accelerate outdir);
    to_write ← lift (dict_of_kwargs blas_wrappers lapack_wrappers);
    write_files to_write.

End MakeAll.

(** ** The entry point of the script *)


Section Main.
Import PyStr.

Context (wc : WrappersCommon) (script_file : string).

(** [LINALG_DIR] (line 37), a constant of the module. *)
Context (LINALG_DIR : string).


End Main.

(** ** A concrete [_wrappers_common] for running the generator *)

Module Sample.
Import PyStr.

(** The double quote character. *)
Definition QUOTE : string := String "034"%char EmptyString.

(** Modelled from the spec: a value for each name imported from the
    missing [_wrappers_common].  Sections 3 and 4.2: the type map sends
    the type names of the signature files to C scalar types, the
    hard-coded-wrapper set holds the routines with a complex return
    value, the legacy set the routines the newer Accelerate lacks; in
    standard mode the macro is the default one and the symbol is the
    routine name. *)
Definition c_types : gmap string string :=
  list_to_map
    [("int", "int"); ("c", "npy_complex64"); ("d", "double"); ("s", "float");
     ("z", "npy_complex128"); ("char", "char"); ("bint", "int"); ("void", "void")].

Definition wrapped_funcs : gset string :=
  list_to_set ["cdotc"; "cdotu"; "zdotc"; "zdotu"; "cladiv"; "zladiv"].

Definition use_old_accelerate : gset string :=
  list_to_set ["lsame"; "dcabs1"].

Definition c_preamble : string :=
  concat_all [NL; "#include "; QUOTE; "fortran_defs.h"; QUOTE; NL;
              "#include "; QUOTE; "npy_cblas.h"; QUOTE; NL].

Definition lapack_decls : string :=
  concat_all [NL; "typedef int (*_dselect2)(double*, double*);"; NL;
              "typedef int (*_sselect2)(float*, float*);"; NL].

Definition cpp_guard_begin : string :=
  concat_all [NL; "#ifdef __cplusplus"; NL; "extern "; QUOTE; "C"; QUOTE; " {"; NL;
              "#endif"; NL; NL].

Definition cpp_guard_end : string :=
  concat_all [NL; "#ifdef __cplusplus"; NL; "}"; NL; "#endif"; NL].

Definition blas_macro_and_name (name : string) (accelerate : bool) : string * string :=
  if accelerate && bool_decide (name ∈ use_old_accelerate) then
    (EmptyString, name +:+ "_")
  else if bool_decide (name ∈ wrapped_funcs) then
    ("F_FUNC", concat_all [name; "wrp,"; upper name; "WRP"])
  else ("BLAS_FUNC", name).

(** Modelled from the spec: a reader for the signature lines, which
    section 4.1 leaves to [_wrappers_common].  A line reads
    [ret name(type *arg, type *arg)]; blank lines and lines starting
    with [#] are skipped; any other shape is a parse failure. *)
Fixpoint split_go (sep : string) (skip : nat) (cur s : string) : list string :=
  match s with
  | EmptyString => [String.rev cur]
  | String a s' =>
      match skip with
      | S k => split_go sep k cur s'
      | O =>
          if startswith sep s
          then String.rev cur :: split_go sep (String.length sep - 1) EmptyString s'
          else split_go sep 0 (String a cur) s'
      end
  end.
Definition split (sep s : string) : list string := split_go sep 0 EmptyString s.

Fixpoint lstrip (s : string) : string :=
  match s with
  | String a s' => if Ascii.is_space a then lstrip s' else s
  | EmptyString => EmptyString
  end.
Definition strip (s : string) : string :=
  String.rev (lstrip (String.rev (lstrip s))).

Definition drop_last (s : string) : string :=
  match String.rev s with
  | String _ r => String.rev r
  | EmptyString => EmptyString
  end.

Definition parse_arg (arg : string) : result (string * string) :=
  match split " *" arg with
  | [t; n] => Ok (t, n)
  | _ => Raise (ValueError arg)
  end.

Fixpoint parse_args (args : list string) : result (list (string * string)) :=
  match args with
  | [] => Ok []
  | a :: rest =>
      p ← parse_arg a;
      ps ← parse_args rest;
      Ok (p :: ps)
  end.

Definition parse_line (line : string) : result Sig.t :=
  match split "(" (drop_last line) with
  | [head; args] =>
      match split " " head with
      | [ret_type; name] =>
          ps ← parse_args (split ", " args);
          Ok (Sig.Build name ret_type (snd <$> ps) (fst <$> ps))
      | _ => Raise (ValueError line)
      end
  | _ => Raise (ValueError line)
  end.

Fixpoint read_lines (lines : list string) : result (list Sig.t) :=
  match lines with
  | [] => Ok []
  | line :: rest =>
      let line := strip line in
      if bool_decide (line = EmptyString) || startswith "#" line then read_lines rest
      else
        sig ← parse_line line;
        sigs ← read_lines rest;
        Ok (sig :: sigs)
  end.

Definition common : WrappersCommon := {|
  C_PREAMBLE := c_preamble;
  C_TYPES := c_types;
  CPP_GUARD_BEGIN := cpp_guard_begin;
  CPP_GUARD_END := cpp_guard_end;
  LAPACK_DECLS := lapack_decls;
  USE_OLD_ACCELERATE := use_old_accelerate;
  WRAPPED_FUNCS := wrapped_funcs;
  get_blas_macro_and_name := blas_macro_and_name;
  read_signatures := read_lines
|}.

Definition script : string := "/scipy/_build_utils/_generate_blas_wrapper.py".

(** Four routines: two ordinary ones, one returning [void] and one a
    value, and one from each exception set. *)
Definition daxpy : Sig.t :=
  Sig.Build "daxpy" "void" ["n"; "da"; "dx"; "incx"; "dy"; "incy"]
                           ["int"; "d"; "d"; "int"; "d"; "int"].
Definition daxpy_c_argtypes : list string :=
  ["int"; "double"; "double"; "int"; "double"; "int"].
Definition cdotc : Sig.t :=
  Sig.Build "cdotc" "c" ["n"; "cx"; "incx"; "cy"; "incy"]
                        ["int"; "c"; "int"; "c"; "int"].
Definition lsame : Sig.t :=
  Sig.Build "lsame" "bint" ["ca"; "cb"] ["char"; "char"].
Definition dlamch : Sig.t := Sig.Build "dlamch" "d" ["cmach"] ["char"].

(** The two signature files. *)
Definition blas_file : string := "/scipy/linalg/cython_blas_signatures.txt".
Definition lapack_file : string := "/scipy/linalg/cython_lapack_signatures.txt".
Definition blas_text : string :=
  concat_all
    ["# BLAS"; NL;
     "void daxpy(int *n, d *da, d *dx, int *incx, d *dy, int *incy)"; NL;
     "c cdotc(int *n, c *cx, int *incx, c *cy, int *incy)"; NL;
     "bint lsame(char *ca, char *cb)"; NL].
Definition lapack_text : string :=
  concat_all ["d dlamch(char *cmach)"; NL].

(** Worlds.  In [fresh] every output is newer than the script and both
    signature files; in [stale] the BLAS signature file was edited after
    the outputs were written; [empty_outdir] has no output yet and another
    clock. *)
Definition outdir : string := "/build".

Definition inputs (t_script t_blas t_lapack : Z) : list (string * File) :=
  [(script, {| mtime := t_script; content := "#!python" |});
   (blas_file, {| mtime := t_blas; content := blas_text |});
   (lapack_file, {| mtime := t_lapack; content := lapack_text |})].

Definition outputs (t : Z) : list (string * File) :=
  [("/build/daxpy.c", {| mtime := t; content := "old" |});
   ("/build/cdotc.c", {| mtime := t; content := "old" |});
   ("/build/lsame.c", {| mtime := t; content := "old" |});
   ("/build/dlamch.c", {| mtime := t; content := "old" |})].

Definition fresh : World :=
  {| fs := list_to_map (inputs 10 20 30 ++ outputs 40); dirs := {["/build"]};
     stdout := []; clock := 50; written := [] |}.

Definition stale : World :=
  {| fs := list_to_map (inputs 10 45 30 ++ outputs 40); dirs := {["/build"]};
     stdout := []; clock := 50; written := [] |}.

Definition empty_outdir : World :=
  {| fs := list_to_map (inputs 1 2 3); dirs := {["/build"; "/tmp"]};
     stdout := ["hello"]; clock := 99; written := [("/tmp/x", "y")] |}.

(** Two stores with the containers of [common] and the signatures
    [daxpy] and [cdotc]; the second one has the leftovers of other calls
    after them. *)
Definition globals : Globals :=
  {| C_TYPES_ref := 0; WRAPPED_FUNCS_ref := 1; USE_OLD_ACCELERATE_ref := 2 |}.

Definition store : list obj :=
  [ODict c_types; OSet wrapped_funcs; OSet use_old_accelerate;
   OList (Sig.argnames daxpy); OList (Sig.argtypes daxpy); OSig "daxpy" "void" 3 4;
   OList (Sig.argnames cdotc); OList (Sig.argtypes cdotc); OSig "cdotc" "c" 6 7].

Definition store_later : list obj :=
  store ++ [OList ["left"; "over"]; ODict {["/build/daxpy.c" := "stale"]}].

(** Worlds without outputs whose signature files cannot be generated
    from: in [bad_type] the second BLAS routine returns a type that is
    not a key of the type map, in [shared_name] a routine is listed for
    both libraries. *)
Definition dnrm2_bad : Sig.t := Sig.Build "dnrm2" "float64" ["n"] ["int"].
Definition drot_short : Sig.t := Sig.Build "drot" "void" ["n"] ["int"].

Definition bad_type : World :=
  {| fs := list_to_map
             [(blas_file,
               {| mtime := 5;
                  content := concat_all ["void drot(int *n)"; NL;
                                         "float64 dnrm2(int *n)"; NL] |});
              (lapack_file, {| mtime := 5; content := lapack_text |})];
     dirs := {["/build"]}; stdout := []; clock := 7; written := [] |}.

Definition shared_name : World :=
  {| fs := list_to_map
             [(blas_file, {| mtime := 5; content := "void drot(int *n)" |});
              (lapack_file, {| mtime := 5; content := "void drot(int *n)" |})];
     dirs := {["/build"]}; stdout := []; clock := 7; written := [] |}.

End Sample.

(** ** Vocabulary of the statements *)

Section Vocabulary.
Import PyStr.

Context (wc : WrappersCommon).

(** The types of a signature are keys of [C_TYPES] (section 3 of the
    specification: they range over a small fixed set). *)
Definition known_types (sig : Sig.t) : Prop :=
  is_Some (C_TYPES wc !! Sig.return_type sig) ∧
  Forall (fun t => is_Some (C_TYPES wc !! t)) (Sig.argtypes sig).

(** [c_ret] and [c_argtypes] are what lines 57-58 look up for [sig]. *)
Definition c_types_of (sig : Sig.t) (c_ret : string) (c_argtypes : list string) : Prop :=
  C_TYPES wc !! Sig.return_type sig = Some c_ret ∧
  Forall2 (fun t v => C_TYPES wc !! t = Some v) (Sig.argtypes sig) c_argtypes.

(** Neither exception applies to [name] under [accelerate]. *)
Definition not_excluded (name : string) (accelerate : bool) : Prop :=
  (name ∉ WRAPPED_FUNCS wc) ∧ (accelerate = true → name ∉ USE_OLD_ACCELERATE wc).

(** One of the two exceptions applies: lines 52-56 return the empty
    string. *)
Definition excluded (name : string) (accelerate : bool) : Prop :=
  name ∈ WRAPPED_FUNCS wc ∨ (accelerate = true ∧ name ∈ USE_OLD_ACCELERATE wc).

(** The call of line 85 meets no unknown type: the routine is excluded
    before line 57, or its types are keys of [C_TYPES]. *)
Definition generates (accelerate : bool) (sig : Sig.t) : Prop :=
  excluded (Sig.name sig) accelerate ∨ known_types sig.

(** One parameter: a C type, a star, the argument name. *)
Definition pointer_param (c_type argname : string) : string :=
  c_type +:+ " *" +:+ argname.

(** The external declaration of the BLAS symbol. *)
Definition extern_declaration (c_ret blas_macro blas_name : string)
    (params : list string) : string :=
  concat_all [c_ret; " "; blas_macro; "("; blas_name; ")("; join ", " params; ");"].

(** The statement inside the forwarding function. *)
Definition forwarding_body (blas_macro blas_name : string) (args : list string) : string :=
  concat_all ["    return "; blas_macro; "("; blas_name; ")("; join ", " args; ");"].

(** The forwarding function under [F_FUNC(name,NAME)]. *)
Definition forwarding_definition (c_ret name blas_macro blas_name : string)
    (params args : list string) : string :=
  concat_all [c_ret; " F_FUNC("; name; ","; upper name; ")("; join ", " params; "){"; NL;
              forwarding_body blas_macro blas_name args; NL; "}"].

(** The strings interpolated into a wrapper. *)
Definition pieces (sig : Sig.t) (accelerate : bool) (c_ret : string)
    (c_argtypes : list string) : list string :=
  [c_ret; Sig.name sig;
   (get_blas_macro_and_name wc (Sig.name sig) accelerate).1;
   (get_blas_macro_and_name wc (Sig.name sig) accelerate).2]
  ++ c_argtypes ++ Sig.argnames sig.

(** The characters that delimit C blocks and statements. *)
Definition punct (c : ascii) : Prop := (c = "{" ∨ c = "}" ∨ c = ";")%char.

(** No brace and no semicolon, as in identifiers and C type names. *)
Definition plain (s : string) : Prop :=
  (count_char "{" s = 0 ∧ count_char "}" s = 0 ∧ count_char ";" s = 0)%nat.

(** The generated wrapper for [sig], as lines 62-67 lay it out. *)
Definition wrapper_text (sig : Sig.t) (accelerate : bool) (c_ret : string)
    (c_argtypes : list string) : string :=
  let macro := (get_blas_macro_and_name wc (Sig.name sig) accelerate).1 in
  let symbol := (get_blas_macro_and_name wc (Sig.name sig) accelerate).2 in
  let params := zip_with pointer_param c_argtypes (Sig.argnames sig) in
  concat_all
    [NL; extern_declaration c_ret macro symbol params; NL;
     forwarding_definition c_ret (Sig.name sig) macro symbol params (Sig.argnames sig);
     NL].

(** Line 109. *)
Definition up_to_date_message : string :=
  "scipy/_build_utils/_generate_blas_wrapper.py: all files up-to-date".

(** The world after [print(msg)]. *)
Definition printed (msg : string) (w : World) : World :=
  {| fs := fs w; dirs := dirs w; stdout := stdout w ++ [msg];
     clock := clock w; written := written w |}.

(** The world after every entry of a dict was written. *)
Definition wrote (to_write : gmap string string) (w : World) : World :=
  {| fs := ((fun text => {| mtime := clock w; content := text |}) <$> to_write) ∪ fs w;
     dirs := dirs w;
     stdout := stdout w;
     clock := clock w;
     written := written w ++ map_to_list to_write |}.

(** The directory of every output path can be written to. *)
Definition outputs_writable (w : World) (dst_files : list string) : Prop :=
  ∀ dst, dst ∈ dst_files → dirname dst ∈ dirs w.

(** The writes a run added to the log. *)
Definition new_writes (before after : World) : list (string * string) :=
  drop (length (written before)) (written after).

(** What lines 96-101 read from the two signature files of a world. *)
Definition parsed (w : World) (blas_signature_file lapack_signature_file : string)
    : result (list Sig.t * list Sig.t) :=
  match fs w !! blas_signature_file with
  | None => Raise (FileNotFoundError blas_signature_file)
  | Some fb =>
      match fs w !! lapack_signature_file with
      | None => Raise (FileNotFoundError lapack_signature_file)
      | Some fl =>
          blas_sigs ← read_signatures wc (readlines (content fb));
          lapack_sigs ← read_signatures wc (readlines (content fl));
          Ok (blas_sigs, lapack_sigs)
      end
  end.

(** The dict lines 111-115 build from the two signature lists. *)
Definition to_write_of (script_file outdir : string) (accelerate : bool)
    (blas_sigs lapack_sigs : list Sig.t) : result (gmap string string) :=
  blas_wrappers ← generate_file_wrapper wc script_file blas_sigs "BLAS" accelerate outdir;
  lapack_wrappers ← generate_file_wrapper wc script_file lapack_sigs "LAPACK" accelerate outdir;
  dict_of_kwargs blas_wrappers lapack_wrappers.

(** Every output exists and is newer than every input that exists. *)
Definition outputs_fresh (w : World) (dst_files src_files : list string) : Prop :=
  ∀ dst, dst ∈ dst_files →
    ∃ d, fs w !! dst = Some d ∧
         ∀ src s, src ∈ src_files → fs w !! src = Some s → (mtime s < mtime d)%Z.

End Vocabulary.

(** ** Facts about Python strings *)

Section StringFacts.
Import PyStr.

Lemma app_cons (a : ascii) (s t : string) : String a s +:+ t = String a (s +:+ t).
Proof. reflexivity. Qed.

Lemma app_empty_l (t : string) : EmptyString +:+ t = t.
Proof. reflexivity. Qed.

Lemma app_empty_r (s : string) : s +:+ EmptyString = s.
Proof. induction s as [|a s IH]; [done|]. by rewrite app_cons, IH. Qed.

Lemma app_assoc_str (s t u : string) : (s +:+ t) +:+ u = s +:+ (t +:+ u).
Proof. induction s as [|a s IH]; [done|]. by rewrite !app_cons, IH. Qed.

Lemma concat_all_app (l1 l2 : list string) :
  concat_all (l1 ++ l2) = concat_all l1 +:+ concat_all l2.
Proof.
  induction l1 as [|x l1 IH]; simpl; [done|].
  by rewrite IH, app_assoc_str.
Qed.

Lemma count_char_app (c : ascii) (s t : string) :
  count_char c (s +:+ t) = (count_char c s + count_char c t)%nat.
Proof.
  induction s as [|a s IH]; [done|].
  rewrite app_cons. simpl. rewrite IH. lia.
Qed.

Lemma count_char_concat_all (c : ascii) (l : list string) :
  count_char c (concat_all l) = count_in_all c l.
Proof.
  induction l as [|x l IH]; simpl; [done|].
  by rewrite count_char_app, IH.
Qed.

Lemma count_char_join (c : ascii) (sep : string) (l : list string) :
  count_char c sep = 0%nat →
  count_char c (join sep l) = count_in_all c l.
Proof.
  intros Hsep. induction l as [|x [|y l] IH]; [done| |].
  - simpl. lia.
  - change (join sep (x :: y :: l)) with (x +:+ sep +:+ join sep (y :: l)).
    rewrite !count_char_app, IH, Hsep. simpl. lia.
Qed.

(** Upper-casing moves letters only. *)
Lemma upper_char_eq (c a : ascii) :
  upper_char c = c → (∀ b, upper_char b = c → b = c) →
  (if decide (upper_char a = c) then 1 else 0) = (if decide (a = c) then 1 else 0) :> nat.
Proof.
  intros Hc Hinv. destruct (decide (a = c)) as [->|Hne].
  - by rewrite Hc, decide_True.
  - rewrite decide_False; [done|]. intros Hu. by apply Hne, Hinv.
Qed.

Lemma upper_char_fixes_punct (c : ascii) :
  (c = "{" ∨ c = "}" ∨ c = ";")%char → ∀ b, upper_char b = c → b = c.
Proof.
  intros [->|[->| ->]] b;
    destruct b as [[] [] [] [] [] [] [] []]; vm_compute; congruence.
Qed.

Lemma count_char_upper (c : ascii) (s : string) :
  (c = "{" ∨ c = "}" ∨ c = ";")%char → count_char c (upper s) = count_char c s.
Proof.
  intros Hc. induction s as [|a s IH]; simpl; [done|].
  rewrite IH. f_equal. apply upper_char_eq.
  - by destruct Hc as [->|[->| ->]].
  - by apply upper_char_fixes_punct.
Qed.

Lemma startswith_app (p s : string) : startswith p (p +:+ s) = true.
Proof.
  induction p as [|a p IH]; [done|].
  rewrite app_cons. simpl. by rewrite decide_True.
Qed.

Lemma contains_prefix (n s : string) : contains n (n +:+ s) = true.
Proof.
  destruct (n +:+ s) eqn:E; simpl.
  - rewrite <- E. by rewrite startswith_app.
  - rewrite <- E. by rewrite startswith_app.
Qed.

Lemma contains_app_r (n a b : string) : contains n b = true → contains n (a +:+ b) = true.
Proof.
  intros Hb. induction a as [|c a IH]; [done|].
  rewrite app_cons. simpl. rewrite IH. apply orb_true_r.
Qed.


End StringFacts.

(** ** Facts about the declaration generator *)

Section DeclFacts.
Import PyStr.

Context (wc : WrappersCommon).

Lemma getitem_Some (d : gmap string string) (k v : string) :
  d !! k = Some v → getitem d k = Ok v.
Proof. unfold getitem. by intros ->. Qed.


Lemma getitems_Forall2 (d : gmap string string) (keys vs : list string) :
  Forall2 (fun t v => d !! t = Some v) keys vs → getitems d keys = Ok vs.
Proof.
  induction 1 as [|t v keys vs Ht _ IH]; simpl; [done|].
  by rewrite (getitem_Some _ _ _ Ht), IH.
Qed.

Lemma known_types_values (d : gmap string string) (keys : list string) :
  Forall (fun t => is_Some (d !! t)) keys →
  ∃ vs, Forall2 (fun t v => d !! t = Some v) keys vs.
Proof.
  induction 1 as [|t keys [v Hv] _ [vs IH]].
  - by exists [].
  - exists (v :: vs). by constructor.
Qed.

Lemma generate_decl_wrapper_wrapped name return_type argnames argtypes accelerate :
  name ∈ WRAPPED_FUNCS wc →
  generate_decl_wrapper wc name return_type argnames argtypes accelerate = Ok EmptyString.
Proof. intros H. unfold generate_decl_wrapper. by rewrite bool_decide_eq_true_2. Qed.

Lemma generate_decl_wrapper_legacy name return_type argnames argtypes :
  name ∈ USE_OLD_ACCELERATE wc →
  generate_decl_wrapper wc name return_type argnames argtypes true = Ok EmptyString.
Proof.
  intros H. unfold generate_decl_wrapper.
  case_bool_decide; [done|]. by rewrite bool_decide_eq_true_2.
Qed.

(** What lines 57-67 return once neither exception applies and every
    type is a key of [C_TYPES]. *)
Lemma generate_decl_wrapper_render
    name return_type argnames argtypes accelerate c_ret c_argtypes :
  not_excluded wc name accelerate →
  C_TYPES wc !! return_type = Some c_ret →
  Forall2 (fun t v => C_TYPES wc !! t = Some v) argtypes c_argtypes →
  generate_decl_wrapper wc name return_type argnames argtypes accelerate =
  Ok (concat_all
        [NL;
         extern_declaration c_ret
           (get_blas_macro_and_name wc name accelerate).1
           (get_blas_macro_and_name wc name accelerate).2
           (zip_with pointer_param c_argtypes argnames);
         NL;
         forwarding_definition c_ret name
           (get_blas_macro_and_name wc name accelerate).1
           (get_blas_macro_and_name wc name accelerate).2
           (zip_with pointer_param c_argtypes argnames) argnames;
         NL]).
Proof.
  intros [Hw Hl] Hret Hargs. unfold generate_decl_wrapper.
  rewrite bool_decide_eq_false_2 by done.
  assert (accelerate && bool_decide (name ∈ USE_OLD_ACCELERATE wc) = false) as ->.
  { destruct accelerate; [|done]. simpl. apply bool_decide_eq_false_2. by apply Hl. }
  rewrite (getitem_Some _ _ _ Hret), (getitems_Forall2 _ _ _ Hargs).
  cbn [mbind result_bind].
  destruct (get_blas_macro_and_name wc name accelerate) as [blas_macro blas_name].
  f_equal. unfold extern_declaration, forwarding_definition, forwarding_body.
  cbn [concat_all fst snd].
  rewrite ?app_assoc_str, ?app_empty_l, ?app_empty_r. done.
Qed.


End DeclFacts.

(** ** Facts about the rendered wrapper *)

Section WrapperFacts.
Import PyStr.

Context (wc : WrappersCommon).

Lemma plain_count (c : ascii) (s : string) : punct c → plain s → count_char c s = 0%nat.
Proof. intros [->|[->| ->]] (H1 & H2 & H3); done. Qed.

Lemma plain_count_in_all (c : ascii) (l : list string) :
  punct c → Forall plain l → count_in_all c l = 0%nat.
Proof.
  intros Hc. induction 1 as [|x l Hx _ IH]; simpl; [done|].
  by rewrite IH, (plain_count c x).
Qed.

Lemma plain_params_count (c : ascii) (c_argtypes argnames : list string) :
  punct c → Forall plain c_argtypes → Forall plain argnames →
  count_in_all c (zip_with pointer_param c_argtypes argnames) = 0%nat.
Proof.
  intros Hc Ht. revert argnames.
  induction Ht as [|t ts Ht _ IH]; intros [|n ns] Hn; simpl; try done.
  inversion Hn as [|? ? Hn1 Hn2]; subst.
  rewrite (IH _ Hn2). unfold pointer_param.
  rewrite !count_char_app, (plain_count c t), (plain_count c n) by done.
  by destruct Hc as [->|[->| ->]].
Qed.

(** Braces and semicolons of a wrapper all come from the template. *)
Lemma count_char_wrapper_text (c : ascii) sig accelerate c_ret c_argtypes :
  punct c →
  Forall plain (pieces wc sig accelerate c_ret c_argtypes) →
  count_char c (wrapper_text wc sig accelerate c_ret c_argtypes) =
  if decide (c = ";"%char) then 2%nat else 1%nat.
Proof.
  intros Hc Hp. unfold pieces in Hp.
  apply Forall_cons in Hp as [Hret Hp]. apply Forall_cons in Hp as [Hname Hp].
  apply Forall_cons in Hp as [Hm Hp]. apply Forall_cons in Hp as [Hb Hp].
  apply Forall_app in Hp as [Hts Hns].
  unfold wrapper_text, extern_declaration, forwarding_definition, forwarding_body.
  cbv zeta.
  repeat (rewrite count_char_concat_all; cbn [count_in_all]).
  rewrite count_char_upper by done.
  rewrite !count_char_join by (by destruct Hc as [->|[->| ->]]).
  rewrite plain_params_count, (plain_count_in_all c (Sig.argnames sig)) by done.
  rewrite !(plain_count c c_ret), !(plain_count c (Sig.name sig)) by done.
  rewrite !(plain_count c (get_blas_macro_and_name wc (Sig.name sig) accelerate).1),
    !(plain_count c (get_blas_macro_and_name wc (Sig.name sig) accelerate).2) by done.
  by destruct Hc as [->|[->| ->]].
Qed.

(** The call of line 85 on a signature neither exception covers. *)
Lemma generate_decl_wrapper_kw_typed sig accelerate c_ret c_argtypes :
  not_excluded wc (Sig.name sig) accelerate →
  c_types_of wc sig c_ret c_argtypes →
  generate_decl_wrapper_kw wc sig accelerate =
    Ok (wrapper_text wc sig accelerate c_ret c_argtypes).
Proof.
  intros Hne [Hret Hvs]. unfold generate_decl_wrapper_kw, wrapper_text.
  by apply generate_decl_wrapper_render.
Qed.

Lemma known_types_c_types_of sig :
  known_types wc sig → ∃ c_ret c_argtypes, c_types_of wc sig c_ret c_argtypes.
Proof.
  intros [[c_ret Hret] Hargs].
  destruct (known_types_values _ _ Hargs) as [c_argtypes Hvs].
  by exists c_ret, c_argtypes.
Qed.

Lemma generate_decl_wrapper_kw_render sig accelerate :
  not_excluded wc (Sig.name sig) accelerate →
  known_types wc sig →
  ∃ c_ret c_argtypes,
    c_types_of wc sig c_ret c_argtypes ∧
    generate_decl_wrapper_kw wc sig accelerate =
      Ok (wrapper_text wc sig accelerate c_ret c_argtypes).
Proof.
  intros Hne Hk. destruct (known_types_c_types_of sig Hk) as (c_ret & c_argtypes & Ht).
  exists c_ret, c_argtypes. split; [done|]. by apply generate_decl_wrapper_kw_typed.
Qed.

(** A wrapper starts with a newline, so it is never the empty string. *)
Lemma wrapper_text_nonempty sig accelerate c_ret c_argtypes :
  wrapper_text wc sig accelerate c_ret c_argtypes ≠ EmptyString.
Proof. unfold wrapper_text. cbn [concat_all]. done. Qed.

(** The parameters follow the argument names, one for one. *)
Lemma params_follow_argnames (types c_argtypes argnames : list string) :
  Forall2 (fun t v => C_TYPES wc !! t = Some v) types c_argtypes →
  length types = length argnames →
  length (zip_with pointer_param c_argtypes argnames) = length argnames ∧
  ∀ i n, argnames !! i = Some n →
    ∃ t ct, types !! i = Some t ∧ C_TYPES wc !! t = Some ct ∧
            zip_with pointer_param c_argtypes argnames !! i = Some (pointer_param ct n).
Proof.
  intros Hvs Hlen. pose proof (Forall2_length _ _ _ Hvs) as Hlen'. split.
  - rewrite length_zip_with. lia.
  - intros i n Hn.
    destruct (lookup_lt_is_Some_2 c_argtypes i) as [ct Hct].
    { apply lookup_lt_Some in Hn. lia. }
    destruct (Forall2_lookup_r _ _ _ _ _ Hvs Hct) as (t & Ht & Htv).
    exists t, ct. split; [done|]. split; [done|].
    rewrite lookup_zip_with, Hct, Hn. done.
Qed.

End WrapperFacts.

(** ** Facts about the file assembler *)

Section FileFacts.
Import PyStr.

Context (wc : WrappersCommon) (script_file : string).

Lemma not_excluded_iff (name : string) (accelerate : bool) :
  not_excluded wc name accelerate ↔ ¬ excluded wc name accelerate.
Proof. unfold not_excluded, excluded. tauto. Qed.

Lemma excluded_or_not (name : string) (accelerate : bool) :
  excluded wc name accelerate ∨ not_excluded wc name accelerate.
Proof.
  unfold excluded, not_excluded.
  destruct (decide (name ∈ WRAPPED_FUNCS wc)); [tauto|].
  destruct accelerate; [|right; split; [done|discriminate]].
  destruct (decide (name ∈ USE_OLD_ACCELERATE wc)); tauto.
Qed.

Lemma generate_decl_wrapper_kw_excluded sig accelerate :
  excluded wc (Sig.name sig) accelerate →
  generate_decl_wrapper_kw wc sig accelerate = Ok EmptyString.
Proof.
  intros [Hw|[-> Hl]]; unfold generate_decl_wrapper_kw.
  - by apply generate_decl_wrapper_wrapped.
  - by apply generate_decl_wrapper_legacy.
Qed.

(** Exactly the signatures that [generates] holds for get a string. *)
Lemma generates_ok sig accelerate :
  generates wc accelerate sig →
  ∃ decl, generate_decl_wrapper_kw wc sig accelerate = Ok decl ∧
          (excluded wc (Sig.name sig) accelerate → decl = EmptyString).
Proof.
  intros Hg. destruct (excluded_or_not (Sig.name sig) accelerate) as [He|Hne].
  - exists EmptyString. by rewrite generate_decl_wrapper_kw_excluded.
  - destruct Hg as [He|Hk]; [by apply not_excluded_iff in Hne|].
    destruct (generate_decl_wrapper_kw_render wc sig accelerate Hne Hk)
      as (c_ret & c_argtypes & _ & Heq).
    eexists. split; [exact Heq|]. intros He. by apply not_excluded_iff in Hne.
Qed.



Lemma file_text_Some pre sig accelerate decl :
  generate_decl_wrapper_kw wc sig accelerate = Ok decl →
  file_text wc (Some pre) sig accelerate =
  Ok (concat_all pre +:+ decl +:+ CPP_GUARD_END wc).
Proof.
  intros H. unfold file_text. cbn [mbind result_bind]. rewrite H.
  cbn [mbind result_bind]. f_equal. rewrite concat_all_app. cbn [concat_all].
  by rewrite app_empty_r.
Qed.

Lemma file_text_generates pre sig accelerate :
  generates wc accelerate sig →
  ∃ text, file_text wc (Some pre) sig accelerate = Ok text.
Proof.
  intros Hg. destruct (generates_ok _ _ Hg) as (decl & Hd & _).
  eexists. by apply file_text_Some.
Qed.

(** *** The loop of lines 82-86 *)

Lemma loop_cons pre accelerate outdir sig rest wrappers text :
  file_text wc pre sig accelerate = Ok text →
  generate_file_wrapper_loop wc pre accelerate outdir (sig :: rest) wrappers =
  generate_file_wrapper_loop wc pre accelerate outdir rest
    (<[file_path outdir sig := text]> wrappers).
Proof. intros H. cbn [generate_file_wrapper_loop]. by rewrite H. Qed.

Lemma loop_cons_inv pre accelerate outdir sig rest wrappers m :
  generate_file_wrapper_loop wc pre accelerate outdir (sig :: rest) wrappers = Ok m →
  ∃ text, file_text wc pre sig accelerate = Ok text ∧
    generate_file_wrapper_loop wc pre accelerate outdir rest
      (<[file_path outdir sig := text]> wrappers) = Ok m.
Proof.
  cbn [generate_file_wrapper_loop].
  destruct (file_text wc pre sig accelerate) as [text|e]; [|done].
  intros H. by exists text.
Qed.

(** The loop ends normally when every call of line 85 does. *)
Lemma loop_ok pre accelerate outdir sigs wrappers :
  Forall (generates wc accelerate) sigs →
  ∃ m, generate_file_wrapper_loop wc (Some pre) accelerate outdir sigs wrappers = Ok m.
Proof.
  intros H. revert wrappers.
  induction H as [|sig rest Hg _ IH]; intros wrappers.
  - by exists wrappers.
  - destruct (file_text_generates pre sig accelerate Hg) as [text Ht].
    rewrite (loop_cons _ _ _ _ _ _ _ Ht). apply IH.
Qed.

(** Paths no signature maps to keep what the dict held before. *)
Lemma loop_lookup_other pre accelerate outdir sigs wrappers m p :
  generate_file_wrapper_loop wc pre accelerate outdir sigs wrappers = Ok m →
  p ∉ file_path outdir <$> sigs →
  m !! p = wrappers !! p.
Proof.
  revert wrappers. induction sigs as [|sig rest IH]; intros wrappers Hm Hp.
  - cbn in Hm. by injection Hm as ->.
  - apply loop_cons_inv in Hm as (text & _ & Hm).
    rewrite fmap_cons in Hp. apply not_elem_of_cons in Hp as [Hne Hp].
    rewrite (IH _ Hm Hp). by rewrite lookup_insert_ne.
Qed.

(** The last signature with a given path decides the text stored there. *)
Lemma loop_lookup_last pre accelerate outdir l1 sig l2 wrappers m :
  generate_file_wrapper_loop wc pre accelerate outdir (l1 ++ sig :: l2) wrappers = Ok m →
  (∀ s, s ∈ l2 → file_path outdir s ≠ file_path outdir sig) →
  ∃ text, file_text wc pre sig accelerate = Ok text ∧
          m !! file_path outdir sig = Some text.
Proof.
  revert wrappers. induction l1 as [|s l1 IH]; intros wrappers Hm Hlast.
  - cbn [app] in Hm. apply loop_cons_inv in Hm as (text & Ht & Hm).
    exists text. split; [done|].
    rewrite (loop_lookup_other _ _ _ _ _ _ _ Hm).
    + by rewrite lookup_insert_eq.
    + intros Hin. apply list_elem_of_fmap in Hin as (s & Hs & Hin).
      by apply (Hlast s Hin).
  - cbn [app] in Hm. apply loop_cons_inv in Hm as (text & _ & Hm).
    by apply (IH _ Hm).
Qed.

(** Entries are never removed. *)
Lemma loop_keeps pre accelerate outdir sigs wrappers m p :
  generate_file_wrapper_loop wc pre accelerate outdir sigs wrappers = Ok m →
  is_Some (wrappers !! p) → is_Some (m !! p).
Proof.
  revert wrappers. induction sigs as [|sig rest IH]; intros wrappers Hm Hp.
  - cbn in Hm. by injection Hm as ->.
  - apply loop_cons_inv in Hm as (text & _ & Hm).
    apply (IH _ Hm). rewrite lookup_insert. case_decide; [by eexists|done].
Qed.

(** Every signature leaves an entry under its path. *)
Lemma loop_has_path pre accelerate outdir sigs wrappers m sig :
  generate_file_wrapper_loop wc pre accelerate outdir sigs wrappers = Ok m →
  sig ∈ sigs → is_Some (m !! file_path outdir sig).
Proof.
  revert wrappers. induction sigs as [|s rest IH]; intros wrappers Hm Hin.
  - by apply elem_of_nil in Hin.
  - apply loop_cons_inv in Hm as (text & _ & Hm).
    apply elem_of_cons in Hin as [->|Hin].
    + apply (loop_keeps _ _ _ _ _ _ _ Hm). rewrite lookup_insert_eq. by eexists.
    + by apply (IH _ Hm).
Qed.

(** Every key was there before or is the path of a signature. *)
Lemma loop_keys pre accelerate outdir sigs wrappers m p :
  generate_file_wrapper_loop wc pre accelerate outdir sigs wrappers = Ok m →
  is_Some (m !! p) →
  is_Some (wrappers !! p) ∨ p ∈ file_path outdir <$> sigs.
Proof.
  intros Hm Hp. destruct (decide (p ∈ file_path outdir <$> sigs)) as [|Hn]; [by right|].
  left. by rewrite <- (loop_lookup_other _ _ _ _ _ _ _ Hm Hn).
Qed.

Lemma loop_size pre accelerate outdir sigs wrappers m :
  generate_file_wrapper_loop wc pre accelerate outdir sigs wrappers = Ok m →
  size m ≤ size wrappers + length sigs.
Proof.
  revert wrappers. induction sigs as [|sig rest IH]; intros wrappers Hm.
  - cbn in Hm. injection Hm as ->. apply Nat.le_add_r.
  - apply loop_cons_inv in Hm as (text & _ & Hm).
    apply IH in Hm. simpl.
    pose proof (map_size_insert (file_path outdir sig) text wrappers) as Hs.
    revert Hm Hs. generalize (size m), (size wrappers),
      (size (<[file_path outdir sig:=text]> wrappers)), (length rest).
    intros a b c d. destruct (wrappers !! file_path outdir sig); unfold id; lia.
Qed.

End FileFacts.

(** ** Properties of the declaration generator *)

(** Closing the side conditions of the examples by evaluation. *)
Ltac lookups :=
  repeat first [apply Forall2_nil_2 | apply Forall2_cons_2; [vm_compute; reflexivity|]].
Ltac all_plain :=
  repeat first [apply Forall_nil_2 | apply Forall_cons_2; [vm_compute; auto|]].

(** C1.  For every signature that neither exception set covers, the text
    generated for its file consists of the preamble, one external
    declaration of the computed BLAS symbol, one forwarding definition
    under [F_FUNC(name,NAME)] and the closing guard; the parameter list of
    the definition has as many parameters as the signature has argument
    names, in the same order.  When the interpolated strings hold no brace
    and no semicolon, the wrapper has exactly one opening brace, one
    closing brace and two semicolons: one block, one declaration and one
    statement. *)
Theorem one_declaration_and_one_definition
    (wc : WrappersCommon) (script_file : string) (sig : Sig.t)
    (lib_name : string) (accelerate : bool) (c_ret : string) (c_argtypes : list string) :
  not_excluded wc (Sig.name sig) accelerate →
  c_types_of wc sig c_ret c_argtypes →
  length (Sig.argtypes sig) = length (Sig.argnames sig) →
  lib_name = "BLAS" ∨ lib_name = "LAPACK" →
  let macro := (get_blas_macro_and_name wc (Sig.name sig) accelerate).1 in
  let symbol := (get_blas_macro_and_name wc (Sig.name sig) accelerate).2 in
  let params := zip_with pointer_param c_argtypes (Sig.argnames sig) in
  let wrapper :=
    PyStr.concat_all
      [PyStr.NL; extern_declaration c_ret macro symbol params; PyStr.NL;
       forwarding_definition c_ret (Sig.name sig) macro symbol params (Sig.argnames sig);
       PyStr.NL] in
  ∃ pre,
    preamble_of wc script_file lib_name = Some pre ∧
    file_text wc (Some pre) sig accelerate =
      Ok (PyStr.concat_all pre +:+ wrapper +:+ CPP_GUARD_END wc) ∧
    length params = length (Sig.argnames sig) ∧
    (∀ i n, Sig.argnames sig !! i = Some n →
       ∃ ct, c_argtypes !! i = Some ct ∧ params !! i = Some (pointer_param ct n)) ∧
    (Forall plain (pieces wc sig accelerate c_ret c_argtypes) →
       PyStr.count_char "{" wrapper = 1 ∧ PyStr.count_char "}" wrapper = 1 ∧
       PyStr.count_char ";" wrapper = 2).
Proof.
  intros Hne Ht Hlen Hlib. cbv zeta.
  pose proof (generate_decl_wrapper_kw_typed wc sig accelerate _ _ Hne Ht) as Heq.
  destruct Ht as [Hret Hvs].
  destruct (params_follow_argnames wc _ _ _ Hvs Hlen) as [Hl Hnth].
  assert (∃ pre, preamble_of wc script_file lib_name = Some pre) as [pre Hpre].
  { destruct Hlib as [-> | ->]; by eexists. }
  exists pre.
  split; [done|]. split; [by apply file_text_Some|].
  split; [done|]. split.
  - intros i n Hn. destruct (Hnth i n Hn) as (t & ct & Hti & Htc & Hp).
    exists ct. split; [|done].
    destruct (Forall2_lookup_l _ _ _ _ _ Hvs Hti) as (ct' & Hct' & Heq').
    congruence.
  - intros Hp.
    pose proof (count_char_wrapper_text wc "{" sig accelerate c_ret c_argtypes) as H1.
    pose proof (count_char_wrapper_text wc "}" sig accelerate c_ret c_argtypes) as H2.
    pose proof (count_char_wrapper_text wc ";" sig accelerate c_ret c_argtypes) as H3.
    unfold wrapper_text in H1, H2, H3. cbv zeta in H1, H2, H3.
    rewrite H1, H2, H3; unfold punct; auto.
Qed.

Lemma one_declaration_and_one_definition_witness :
  not_excluded Sample.common (Sig.name Sample.daxpy) false ∧
  c_types_of Sample.common Sample.daxpy "void" Sample.daxpy_c_argtypes ∧
  ∃ text,
    file_text Sample.common (preamble_of Sample.common Sample.script "BLAS")
      Sample.daxpy false = Ok text ∧
    PyStr.count_char "{"
      (wrapper_text Sample.common Sample.daxpy false "void" Sample.daxpy_c_argtypes) = 1.
Proof.
  assert (not_excluded Sample.common (Sig.name Sample.daxpy) false) as H1.
  { split; [compute_done | discriminate]. }
  assert (c_types_of Sample.common Sample.daxpy "void" Sample.daxpy_c_argtypes) as H2.
  { split; [vm_compute; reflexivity | lookups]. }
  split; [exact H1|]. split; [exact H2|].
  destruct (one_declaration_and_one_definition Sample.common Sample.script
              Sample.daxpy "BLAS" false "void" Sample.daxpy_c_argtypes
              H1 H2 eq_refl (or_introl eq_refl))
    as (pre & Hpre & Htext & _ & _ & Hcount).
  eexists. split; [rewrite Hpre; exact Htext|].
  apply Hcount. all_plain.
Defined.

(** C2.  For a routine of the legacy-covered set, [generate_decl_wrapper]
    returns the empty string when [accelerate] is true; when it is false
    the same signature gets the wrapper snippet, an external declaration
    and a forwarding definition rendered from its C types, which is not
    empty, provided the name is not in [WRAPPED_FUNCS] and the types of
    the signature are keys of [C_TYPES]. *)
Theorem legacy_routine_wrapped_only_in_standard_mode
    (wc : WrappersCommon) (name return_type : string) (argnames argtypes : list string) :
  name ∈ USE_OLD_ACCELERATE wc →
  generate_decl_wrapper wc name return_type argnames argtypes true = Ok EmptyString ∧
  ((name ∉ WRAPPED_FUNCS wc) →
   known_types wc (Sig.Build name return_type argnames argtypes) →
   ∃ c_ret c_argtypes,
     c_types_of wc (Sig.Build name return_type argnames argtypes) c_ret c_argtypes ∧
     let macro := (get_blas_macro_and_name wc name false).1 in
     let symbol := (get_blas_macro_and_name wc name false).2 in
     let params := zip_with pointer_param c_argtypes argnames in
     let text :=
       PyStr.concat_all
         [PyStr.NL; extern_declaration c_ret macro symbol params; PyStr.NL;
          forwarding_definition c_ret name macro symbol params argnames; PyStr.NL] in
     generate_decl_wrapper wc name return_type argnames argtypes false = Ok text ∧
     text ≠ EmptyString).
Proof.
  intros Hl. split; [by apply generate_decl_wrapper_legacy|].
  intros Hw Hk.
  destruct (generate_decl_wrapper_kw_render wc (Sig.Build name return_type argnames argtypes)
              false) as (c_ret & c_argtypes & Ht & Heq); [by split|done|].
  exists c_ret, c_argtypes. split; [done|]. cbv zeta. split; [exact Heq|].
  apply (wrapper_text_nonempty wc (Sig.Build name return_type argnames argtypes)).
Qed.

Lemma legacy_routine_wrapped_only_in_standard_mode_witness :
  "lsame" ∈ USE_OLD_ACCELERATE Sample.common ∧
  generate_decl_wrapper Sample.common "lsame" "bint" ["ca"; "cb"] ["char"; "char"] true
    = Ok EmptyString ∧
  ∃ params,
    generate_decl_wrapper Sample.common "lsame" "bint" ["ca"; "cb"] ["char"; "char"] false
    = Ok (PyStr.concat_all
            [PyStr.NL; extern_declaration "int" "BLAS_FUNC" "lsame" params; PyStr.NL;
             forwarding_definition "int" "lsame" "BLAS_FUNC" "lsame" params ["ca"; "cb"];
             PyStr.NL]).
Proof.
  assert ("lsame" ∈ USE_OLD_ACCELERATE Sample.common) as H by compute_done.
  split; [exact H|].
  destruct (legacy_routine_wrapped_only_in_standard_mode Sample.common
              "lsame" "bint" ["ca"; "cb"] ["char"; "char"] H) as [Ht Hf].
  split; [exact Ht|].
  destruct Hf as (c_ret & c_argtypes & [Hret _] & Heq & _).
  - compute_done.
  - split; [by eexists; vm_compute | repeat constructor; by eexists; vm_compute].
  - vm_compute in Hret. injection Hret as <-.
    exists (zip_with pointer_param c_argtypes ["ca"; "cb"]). exact Heq.
Defined.

(** C3.  For a routine of the hard-coded-wrapper set and either value of
    [accelerate], [generate_decl_wrapper] returns the empty string, and the
    text of the file is the preamble followed at once by the closing
    guard. *)
Theorem wrapped_routine_has_empty_body
    (wc : WrappersCommon) (script_file : string) (sig : Sig.t) (accelerate : bool) :
  Sig.name sig ∈ WRAPPED_FUNCS wc →
  generate_decl_wrapper wc (Sig.name sig) (Sig.return_type sig)
    (Sig.argnames sig) (Sig.argtypes sig) accelerate = Ok EmptyString ∧
  ∀ lib_name, lib_name = "BLAS" ∨ lib_name = "LAPACK" →
    ∃ pre, preamble_of wc script_file lib_name = Some pre ∧
           file_text wc (Some pre) sig accelerate =
             Ok (PyStr.concat_all pre +:+ CPP_GUARD_END wc).
Proof.
  intros Hw.
  pose proof (generate_decl_wrapper_wrapped wc (Sig.name sig) (Sig.return_type sig)
                (Sig.argnames sig) (Sig.argtypes sig) accelerate Hw) as Hd.
  split; [done|]. intros lib_name Hlib.
  assert (∃ pre, preamble_of wc script_file lib_name = Some pre) as [pre Hpre].
  { destruct Hlib as [-> | ->]; by eexists. }
  exists pre. split; [done|].
  by rewrite (file_text_Some wc pre sig accelerate EmptyString Hd).
Qed.

Lemma wrapped_routine_has_empty_body_witness :
  Sig.name Sample.cdotc ∈ WRAPPED_FUNCS Sample.common ∧
  generate_decl_wrapper_kw Sample.common Sample.cdotc true = Ok EmptyString ∧
  generate_decl_wrapper_kw Sample.common Sample.cdotc false = Ok EmptyString.
Proof.
  assert (Sig.name Sample.cdotc ∈ WRAPPED_FUNCS Sample.common) as H by compute_done.
  split; [exact H|]. split.
  - exact (proj1 (wrapped_routine_has_empty_body Sample.common Sample.script
                    Sample.cdotc true H)).
  - exact (proj1 (wrapped_routine_has_empty_body Sample.common Sample.script
                    Sample.cdotc false H)).
Defined.

(** C4, as stated, fails: the wrapper of [daxpy], whose return type is
    [void], contains a return statement. *)
Lemma void_wrapper_has_return_statement :
  ¬ (∀ (sig : Sig.t) (accelerate : bool) (text : string),
       Sig.return_type sig = "void" →
       not_excluded Sample.common (Sig.name sig) accelerate →
       generate_decl_wrapper_kw Sample.common sig accelerate = Ok text →
       PyStr.contains "return" text = false).
Proof.
  intros H.
  assert (not_excluded Sample.common (Sig.name Sample.daxpy) false) as Hne.
  { split; [compute_done | discriminate]. }
  specialize (H Sample.daxpy false _ eq_refl Hne eq_refl).
  vm_compute in H. discriminate H.
Qed.

(** C4, amended.  For every signature that neither exception set covers,
    whatever its return type, [void] included, the block of the forwarding
    function is the one statement
    [return blas_macro(blas_name)(argnames);]: the return type has no
    part in the body. *)
Theorem forwarding_body_returns_for_every_return_type
    (wc : WrappersCommon) (sig : Sig.t) (accelerate : bool)
    (c_ret : string) (c_argtypes : list string) :
  not_excluded wc (Sig.name sig) accelerate →
  c_types_of wc sig c_ret c_argtypes →
  let macro := (get_blas_macro_and_name wc (Sig.name sig) accelerate).1 in
  let symbol := (get_blas_macro_and_name wc (Sig.name sig) accelerate).2 in
  ∃ head text,
    generate_decl_wrapper_kw wc sig accelerate = Ok text ∧
    text = head +:+ "{" +:+ PyStr.NL +:+
           "    return " +:+ macro +:+ "(" +:+ symbol +:+ ")(" +:+
           PyStr.join ", " (Sig.argnames sig) +:+ ");" +:+ PyStr.NL +:+
           "}" +:+ PyStr.NL ∧
    PyStr.contains "return " text = true.
Proof.
  intros Hne Ht. cbv zeta.
  pose proof (generate_decl_wrapper_kw_typed wc sig accelerate _ _ Hne Ht) as Heq.
  set (macro := (get_blas_macro_and_name wc (Sig.name sig) accelerate).1) in *.
  set (symbol := (get_blas_macro_and_name wc (Sig.name sig) accelerate).2) in *.
  set (params := zip_with pointer_param c_argtypes (Sig.argnames sig)).
  exists (PyStr.NL +:+ extern_declaration c_ret macro symbol params +:+ PyStr.NL +:+
          c_ret +:+ " F_FUNC(" +:+ Sig.name sig +:+ "," +:+ PyStr.upper (Sig.name sig) +:+
          ")(" +:+ PyStr.join ", " params +:+ ")").
  eexists. split; [exact Heq|].
  match goal with |- ?l = ?r ∧ _ => assert (l = r) as Hshape end.
  { unfold wrapper_text, forwarding_definition, forwarding_body.
    cbv zeta. fold macro symbol params. cbn [PyStr.concat_all].
    change "){" with (")" +:+ "{").
    rewrite ?app_assoc_str, ?app_empty_l, ?app_empty_r. done. }
  split; [exact Hshape|]. rewrite Hshape.
  do 3 apply contains_app_r.
  change "    return " with ("    " +:+ "return ").
  rewrite app_assoc_str. apply contains_app_r, contains_prefix.
Qed.

Lemma forwarding_body_returns_for_every_return_type_witness :
  Sig.return_type Sample.daxpy = "void" ∧
  not_excluded Sample.common (Sig.name Sample.daxpy) false ∧
  c_types_of Sample.common Sample.daxpy "void" Sample.daxpy_c_argtypes ∧
  ∃ text, generate_decl_wrapper_kw Sample.common Sample.daxpy false = Ok text ∧
          PyStr.contains "return " text = true.
Proof.
  assert (not_excluded Sample.common (Sig.name Sample.daxpy) false) as H1.
  { split; [compute_done | discriminate]. }
  assert (c_types_of Sample.common Sample.daxpy "void" Sample.daxpy_c_argtypes) as H2.
  { split; [vm_compute; reflexivity | lookups]. }
  split; [reflexivity|]. split; [exact H1|]. split; [exact H2|].
  destruct (forwarding_body_returns_for_every_return_type Sample.common
              Sample.daxpy false "void" Sample.daxpy_c_argtypes H1 H2)
    as (head & text & Heq & _ & Hc).
  exists text. split; [exact Heq | exact Hc].
Defined.

(** C10.  In every generated wrapper the external declaration and the
    forwarding definition share one parameter list, and each of its
    parameters is the C type mapped from the argument type, followed by a
    star and the argument name; this holds for every argument and for
    either value of [accelerate]. *)
Theorem every_parameter_is_a_pointer
    (wc : WrappersCommon) (sig : Sig.t) (accelerate : bool)
    (c_ret : string) (c_argtypes : list string) :
  not_excluded wc (Sig.name sig) accelerate →
  c_types_of wc sig c_ret c_argtypes →
  length (Sig.argtypes sig) = length (Sig.argnames sig) →
  let macro := (get_blas_macro_and_name wc (Sig.name sig) accelerate).1 in
  let symbol := (get_blas_macro_and_name wc (Sig.name sig) accelerate).2 in
  ∃ params,
    generate_decl_wrapper_kw wc sig accelerate =
      Ok (PyStr.concat_all
            [PyStr.NL; extern_declaration c_ret macro symbol params; PyStr.NL;
             forwarding_definition c_ret (Sig.name sig) macro symbol params
               (Sig.argnames sig);
             PyStr.NL]) ∧
    length params = length (Sig.argnames sig) ∧
    ∀ i n, Sig.argnames sig !! i = Some n →
      ∃ t ct, Sig.argtypes sig !! i = Some t ∧ C_TYPES wc !! t = Some ct ∧
              params !! i = Some (ct +:+ " *" +:+ n).
Proof.
  intros Hne Ht Hlen. cbv zeta.
  exists (zip_with pointer_param c_argtypes (Sig.argnames sig)).
  split; [by apply generate_decl_wrapper_kw_typed|].
  destruct Ht as [_ Hvs]. by apply params_follow_argnames.
Qed.

Lemma every_parameter_is_a_pointer_witness :
  not_excluded Sample.common (Sig.name Sample.daxpy) true ∧
  c_types_of Sample.common Sample.daxpy "void" Sample.daxpy_c_argtypes ∧
  ∃ params,
    length params = 6 ∧
    ∃ t ct, Sig.argtypes Sample.daxpy !! 1 = Some t ∧
            C_TYPES Sample.common !! t = Some ct ∧
            params !! 1 = Some (ct +:+ " *" +:+ "da").
Proof.
  assert (not_excluded Sample.common (Sig.name Sample.daxpy) true) as H1.
  { split; [compute_done | intros _; compute_done]. }
  assert (c_types_of Sample.common Sample.daxpy "void" Sample.daxpy_c_argtypes) as H2.
  { split; [vm_compute; reflexivity | lookups]. }
  split; [exact H1|]. split; [exact H2|].
  destruct (every_parameter_is_a_pointer Sample.common Sample.daxpy true
              "void" Sample.daxpy_c_argtypes H1 H2 eq_refl)
    as (params & _ & Hlen & Hnth).
  exists params. split; [exact Hlen|]. exact (Hnth 1 "da" eq_refl).
Defined.


(** ** Properties of the file assembler *)

Section AssemblerFacts.
Import PyStr.

Context (wc : WrappersCommon) (script_file : string).

(** With distinct paths, none of them taken, every signature adds an entry. *)
Lemma loop_size_NoDup pre accelerate outdir sigs wrappers m :
  generate_file_wrapper_loop wc pre accelerate outdir sigs wrappers = Ok m →
  NoDup (file_path outdir <$> sigs) →
  (∀ s, s ∈ sigs → wrappers !! file_path outdir s = None) →
  size m = size wrappers + length sigs.
Proof.
  revert wrappers. induction sigs as [|sig rest IH]; intros wrappers Hm Hnd Hfree.
  - cbn in Hm. injection Hm as ->. simpl. by rewrite Nat.add_0_r.
  - apply loop_cons_inv in Hm as (text & _ & Hm).
    rewrite fmap_cons in Hnd. apply NoDup_cons in Hnd as [Hnotin Hnd].
    rewrite (IH _ Hm Hnd).
    + rewrite map_size_insert_None by (apply Hfree; left). simpl.
      rewrite <- Nat.add_succ_comm. done.
    + intros s Hs. rewrite lookup_insert_ne; [apply Hfree; by right|].
      intros Heq. apply Hnotin. rewrite Heq. by apply list_elem_of_fmap_2.
Qed.

Lemma generate_file_wrapper_ok sigs lib_name accelerate outdir :
  lib_name = "BLAS" ∨ lib_name = "LAPACK" →
  Forall (generates wc accelerate) sigs →
  ∃ pre m, preamble_of wc script_file lib_name = Some pre ∧
           generate_file_wrapper wc script_file sigs lib_name accelerate outdir = Ok m.
Proof.
  intros Hlib Hg.
  assert (∃ pre, preamble_of wc script_file lib_name = Some pre) as [pre Hpre].
  { destruct Hlib as [-> | ->]; by eexists. }
  unfold generate_file_wrapper. rewrite Hpre.
  destruct (loop_ok wc pre accelerate outdir sigs ∅ Hg) as [m Hm].
  by exists pre, m.
Qed.

(** The text of a preamble, piece by piece. *)
Lemma preamble_text lib_name pre :
  lib_name = "BLAS" ∨ lib_name = "LAPACK" →
  preamble_of wc script_file lib_name = Some pre →
  concat_all pre =
    C_COMMENT script_file +:+ C_PREAMBLE wc +:+
    (if bool_decide (lib_name = "LAPACK") then LAPACK_DECLS wc else EmptyString) +:+
    CPP_GUARD_BEGIN wc.
Proof.
  intros [-> | ->] Hpre; cbv in Hpre; injection Hpre as <-;
    cbn [concat_all]; by rewrite app_empty_r.
Qed.

End AssemblerFacts.

(** C5, as stated, fails in its second half: a routine of the
    hard-coded-wrapper set still gets an entry in the returned dict. *)
Lemma wrapped_routine_still_gets_a_file :
  ¬ (∀ (sigs : list Sig.t) (lib_name : string) (accelerate : bool) (outdir : string)
       (m : gmap string string) (sig : Sig.t),
       generate_file_wrapper Sample.common Sample.script sigs lib_name accelerate outdir
         = Ok m →
       sig ∈ sigs →
       Sig.name sig ∈ WRAPPED_FUNCS Sample.common →
       m !! PyStr.os_path_join outdir (Sig.name sig +:+ ".c") = None).
Proof.
  intros H.
  destruct (generate_file_wrapper Sample.common Sample.script [Sample.cdotc]
              "BLAS" false "/build") as [m|e] eqn:Hm; [|by vm_compute in Hm].
  specialize (H [Sample.cdotc] "BLAS" false "/build" m Sample.cdotc Hm).
  assert (m !! "/build/cdotc.c" ≠ None) as Hsome.
  { vm_compute in Hm. injection Hm as <-. by vm_compute. }
  apply Hsome, H; [by left | compute_done].
Qed.

(** C5, amended.  Every signature of the list gets one output file, keyed
    by [os.path.join(outdir, name + '.c')], and the dict holds no other
    key: it has at most as many entries as there are signatures, and
    exactly as many when their paths are distinct.  A routine of the
    hard-coded-wrapper set gets its file like any other; when it is the
    last signature with its path, the file is the preamble followed at
    once by the closing guard. *)
Theorem every_signature_gets_one_file
    (wc : WrappersCommon) (script_file : string) (sigs : list Sig.t)
    (lib_name : string) (accelerate : bool) (outdir : string) :
  lib_name = "BLAS" ∨ lib_name = "LAPACK" →
  Forall (generates wc accelerate) sigs →
  ∃ pre m,
    preamble_of wc script_file lib_name = Some pre ∧
    generate_file_wrapper wc script_file sigs lib_name accelerate outdir = Ok m ∧
    (∀ sig, sig ∈ sigs →
       is_Some (m !! PyStr.os_path_join outdir (Sig.name sig +:+ ".c"))) ∧
    (∀ p, is_Some (m !! p) →
       ∃ sig, sig ∈ sigs ∧ p = PyStr.os_path_join outdir (Sig.name sig +:+ ".c")) ∧
    size m ≤ length sigs ∧
    (NoDup (file_path outdir <$> sigs) → size m = length sigs) ∧
    (∀ l1 sig l2,
       sigs = l1 ++ sig :: l2 →
       (∀ s, s ∈ l2 → file_path outdir s ≠ file_path outdir sig) →
       Sig.name sig ∈ WRAPPED_FUNCS wc →
       m !! file_path outdir sig = Some (PyStr.concat_all pre +:+ CPP_GUARD_END wc)).
Proof.
  intros Hlib Hg.
  destruct (generate_file_wrapper_ok wc script_file sigs lib_name accelerate outdir Hlib Hg)
    as (pre & m & Hpre & Hm).
  exists pre, m. split; [done|]. split; [done|].
  unfold generate_file_wrapper in Hm. rewrite Hpre in Hm.
  split; [|split; [|split; [|split]]].
  - intros sig Hin. by apply (loop_has_path wc _ _ _ _ _ _ _ Hm).
  - intros p Hp. destruct (loop_keys wc _ _ _ _ _ _ _ Hm Hp) as [He|Hin].
    + rewrite lookup_empty in He. by destruct He.
    + apply list_elem_of_fmap in Hin as (sig & -> & Hin). by exists sig.
  - pose proof (loop_size wc _ _ _ _ _ _ Hm) as Hs.
    by rewrite map_size_empty in Hs.
  - intros Hnd. rewrite (loop_size_NoDup wc _ _ _ _ _ _ Hm Hnd).
    + by rewrite map_size_empty.
    + intros s _. apply lookup_empty.
  - intros l1 sig l2 -> Hlast Hw.
    destruct (loop_lookup_last wc _ _ _ _ _ _ _ _ Hm Hlast) as (text & Ht & Hl).
    rewrite Hl. f_equal.
    rewrite (file_text_Some wc pre sig accelerate EmptyString) in Ht.
    + by injection Ht as <-.
    + apply generate_decl_wrapper_kw_excluded. by left.
Qed.

Lemma every_signature_gets_one_file_witness :
  Forall (generates Sample.common true) [Sample.daxpy; Sample.cdotc; Sample.lsame] ∧
  ∃ m,
    generate_file_wrapper Sample.common Sample.script
      [Sample.daxpy; Sample.cdotc; Sample.lsame] "BLAS" true "/build" = Ok m ∧
    size m = 3 ∧
    is_Some (m !! "/build/cdotc.c").
Proof.
  assert (Forall (generates Sample.common true)
            [Sample.daxpy; Sample.cdotc; Sample.lsame]) as Hg.
  { repeat first [apply Forall_nil_2 | apply Forall_cons_2].
    - right. split; [by eexists; vm_compute | repeat constructor; by eexists; vm_compute].
    - left. left. compute_done.
    - left. right. split; [reflexivity | compute_done]. }
  split; [exact Hg|].
  destruct (every_signature_gets_one_file Sample.common Sample.script
              [Sample.daxpy; Sample.cdotc; Sample.lsame] "BLAS" true "/build"
              (or_introl eq_refl) Hg)
    as (pre & m & _ & Hm & Hin & _ & _ & Hsize & _).
  exists m. split; [exact Hm|]. split.
  - apply Hsize. vm_compute. repeat constructor; compute_done.
  - apply (Hin Sample.cdotc). right; left.
Defined.

(** C8.  For both libraries the text stored for a signature is the
    file-header comment, the fixed preamble (with the LAPACK declarations
    when the library is LAPACK, and the opening guard), what
    [generate_decl_wrapper] returns for the signature, and the closing
    guard, in this order.  Every signature has an entry in the returned
    dict, also when its wrapper is the empty string. *)
Theorem file_is_comment_preamble_wrapper_guard
    (wc : WrappersCommon) (script_file : string) (sigs : list Sig.t)
    (lib_name : string) (accelerate : bool) (outdir : string) :
  lib_name = "BLAS" ∨ lib_name = "LAPACK" →
  Forall (generates wc accelerate) sigs →
  ∃ m,
    generate_file_wrapper wc script_file sigs lib_name accelerate outdir = Ok m ∧
    (∀ sig, sig ∈ sigs → is_Some (m !! file_path outdir sig)) ∧
    (∀ l1 sig l2,
       sigs = l1 ++ sig :: l2 →
       (∀ s, s ∈ l2 → file_path outdir s ≠ file_path outdir sig) →
       ∃ decl,
         generate_decl_wrapper_kw wc sig accelerate = Ok decl ∧
         (excluded wc (Sig.name sig) accelerate → decl = EmptyString) ∧
         m !! file_path outdir sig =
           Some (C_COMMENT script_file +:+ C_PREAMBLE wc +:+
                 (if bool_decide (lib_name = "LAPACK") then LAPACK_DECLS wc
                  else EmptyString) +:+
                 CPP_GUARD_BEGIN wc +:+ decl +:+ CPP_GUARD_END wc)).
Proof.
  intros Hlib Hg.
  destruct (generate_file_wrapper_ok wc script_file sigs lib_name accelerate outdir Hlib Hg)
    as (pre & m & Hpre & Hm).
  exists m. split; [done|].
  unfold generate_file_wrapper in Hm. rewrite Hpre in Hm. split.
  - intros sig Hin. by apply (loop_has_path wc _ _ _ _ _ _ _ Hm).
  - intros l1 sig l2 -> Hlast.
    destruct (loop_lookup_last wc _ _ _ _ _ _ _ _ Hm Hlast) as (text & Ht & Hl).
    assert (generates wc accelerate sig) as Hgs.
    { rewrite Forall_forall in Hg. apply Hg. apply elem_of_app. right. by left. }
    destruct (generates_ok wc sig accelerate Hgs) as (decl & Hd & He).
    exists decl. split; [done|]. split; [done|].
    rewrite Hl. f_equal.
    rewrite (file_text_Some wc pre sig accelerate decl Hd) in Ht.
    injection Ht as <-.
    rewrite (preamble_text wc script_file lib_name pre Hlib Hpre).
    by rewrite !app_assoc_str.
Qed.

Lemma file_is_comment_preamble_wrapper_guard_witness :
  Forall (generates Sample.common false) [Sample.dlamch; Sample.cdotc] ∧
  ∃ m,
    generate_file_wrapper Sample.common Sample.script
      [Sample.dlamch; Sample.cdotc] "LAPACK" false "/build" = Ok m ∧
    m !! "/build/cdotc.c" =
      Some (C_COMMENT Sample.script +:+ Sample.c_preamble +:+ Sample.lapack_decls +:+
            Sample.cpp_guard_begin +:+ Sample.cpp_guard_end).
Proof.
  assert (Forall (generates Sample.common false) [Sample.dlamch; Sample.cdotc]) as Hg.
  { repeat first [apply Forall_nil_2 | apply Forall_cons_2].
    - right. split; [by eexists; vm_compute | repeat constructor; by eexists; vm_compute].
    - left. left. compute_done. }
  split; [exact Hg|].
  destruct (file_is_comment_preamble_wrapper_guard Sample.common Sample.script
              [Sample.dlamch; Sample.cdotc] "LAPACK" false "/build"
              (or_intror eq_refl) Hg)
    as (m & Hm & _ & Hlast).
  exists m. split; [exact Hm|].
  destruct (Hlast [Sample.dlamch] Sample.cdotc [] eq_refl) as (decl & Hd & _ & Hl).
  - intros s Hs. by apply elem_of_nil in Hs.
  - vm_compute in Hd. injection Hd as <-. exact Hl.
Defined.


(** ** Facts about [make_all] *)

Section MakeAllFacts.
Import PyStr.

Context (wc : WrappersCommon) (script_file : string).

(** [make_all], branch by branch. *)
Lemma make_all_eq outdir bf lf accelerate w :
  make_all wc script_file outdir bf lf accelerate w =
  match parsed wc w bf lf with
  | Raise e => (Raise e, w)
  | Ok (blas_sigs, lapack_sigs) =>
      if all_newer_in w (file_path outdir <$> (blas_sigs ++ lapack_sigs))
           [script_file; bf; lf]
      then (Ok tt, printed up_to_date_message w)
      else
        match to_write_of wc script_file outdir accelerate blas_sigs lapack_sigs with
        | Raise e => (Raise e, w)
        | Ok to_write => write_files to_write w
        end
  end.
Proof.
  unfold make_all, parsed, to_write_of, open_readlines, lift, all_newer.
  unfold mbind, Py_bind, result_bind. cbv beta.
  destruct (fs w !! bf) as [fb|]; [|done].
  destruct (fs w !! lf) as [fl|]; [|done].
  destruct (read_signatures wc (readlines (content fb))) as [bs|e]; [|done].
  destruct (read_signatures wc (readlines (content fl))) as [ls|e]; [|done].
  destruct (all_newer_in w _ _); [done|].
  destruct (generate_file_wrapper wc script_file bs "BLAS" accelerate outdir)
    as [bw|e]; [|done].
  destruct (generate_file_wrapper wc script_file ls "LAPACK" accelerate outdir)
    as [lw|e]; [|done].
  by destruct (dict_of_kwargs bw lw).
Qed.

Lemma all_newer_in_fresh w dst_files src_files :
  outputs_fresh w dst_files src_files → all_newer_in w dst_files src_files = true.
Proof.
  intros Hf. unfold all_newer_in. apply forallb_forall. intros dst Hin.
  apply list_elem_of_In in Hin. destruct (Hf dst Hin) as (d & -> & Hd).
  apply forallb_forall. intros src Hsrc. apply list_elem_of_In in Hsrc.
  unfold newer_than. destruct (fs w !! src) as [s|] eqn:Hs; [|done].
  apply bool_decide_eq_true_2. by apply (Hd src s).
Qed.

Lemma all_newer_in_stale w dst_files src_files src dst s d :
  src ∈ src_files → dst ∈ dst_files →
  fs w !! src = Some s → fs w !! dst = Some d → (mtime d < mtime s)%Z →
  all_newer_in w dst_files src_files = false.
Proof.
  intros Hsrc Hdst Hs Hd Hlt.
  destruct (all_newer_in w dst_files src_files) eqn:E; [|done]. exfalso.
  unfold all_newer_in in E. rewrite forallb_forall in E.
  specialize (E dst (proj1 (list_elem_of_In _ _) Hdst)). rewrite Hd in E.
  rewrite forallb_forall in E.
  specialize (E src (proj1 (list_elem_of_In _ _) Hsrc)).
  unfold newer_than in E. rewrite Hs in E.
  apply bool_decide_eq_true_1 in E. lia.
Qed.

Lemma parsed_ok w bf lf fb fl bs ls :
  fs w !! bf = Some fb → fs w !! lf = Some fl →
  read_signatures wc (readlines (content fb)) = Ok bs →
  read_signatures wc (readlines (content fl)) = Ok ls →
  parsed wc w bf lf = Ok (bs, ls).
Proof. unfold parsed. by intros -> -> -> ->. Qed.


End MakeAllFacts.

Section RunFacts.
Import PyStr.

Context (wc : WrappersCommon) (script_file : string).

Lemma generate_file_wrapper_keys sigs lib_name accelerate outdir m p :
  generate_file_wrapper wc script_file sigs lib_name accelerate outdir = Ok m →
  is_Some (m !! p) → p ∈ file_path outdir <$> sigs.
Proof.
  intros Hm Hp. destruct (loop_keys wc _ _ _ _ _ _ _ Hm Hp) as [He|Hin]; [|done].
  rewrite lookup_empty in He. by destruct He.
Qed.

Lemma generate_file_wrapper_has_path sigs lib_name accelerate outdir m sig :
  generate_file_wrapper wc script_file sigs lib_name accelerate outdir = Ok m →
  sig ∈ sigs → is_Some (m !! file_path outdir sig).
Proof. intros Hm Hin. by apply (loop_has_path wc _ _ _ _ _ _ _ Hm). Qed.

(** Lines 111-115 end normally when every signature generates and no
    path belongs to both libraries. *)
Lemma to_write_of_ok outdir accelerate bs ls :
  Forall (generates wc accelerate) (bs ++ ls) →
  (∀ b l, b ∈ bs → l ∈ ls → file_path outdir b ≠ file_path outdir l) →
  ∃ bw lw,
    generate_file_wrapper wc script_file bs "BLAS" accelerate outdir = Ok bw ∧
    generate_file_wrapper wc script_file ls "LAPACK" accelerate outdir = Ok lw ∧
    to_write_of wc script_file outdir accelerate bs ls = Ok (bw ∪ lw).
Proof.
  intros Hg Hdisj. apply Forall_app in Hg as [Hgb Hgl].
  destruct (generate_file_wrapper_ok wc script_file bs "BLAS" accelerate outdir
              (or_introl eq_refl) Hgb) as (_ & bw & _ & Hbw).
  destruct (generate_file_wrapper_ok wc script_file ls "LAPACK" accelerate outdir
              (or_intror eq_refl) Hgl) as (_ & lw & _ & Hlw).
  exists bw, lw. split; [done|]. split; [done|].
  unfold to_write_of. rewrite Hbw, Hlw. cbn [mbind result_bind].
  unfold dict_of_kwargs. rewrite bool_decide_eq_true_2; [done|].
  apply map_disjoint_spec. intros p x y Hx Hy.
  assert (p ∈ file_path outdir <$> bs) as Hb.
  { apply (generate_file_wrapper_keys _ _ _ _ _ _ Hbw). by eexists. }
  assert (p ∈ file_path outdir <$> ls) as Hl.
  { apply (generate_file_wrapper_keys _ _ _ _ _ _ Hlw). by eexists. }
  apply list_elem_of_fmap in Hb as (b & -> & Hb).
  apply list_elem_of_fmap in Hl as (l & Heq & Hl).
  by apply (Hdisj b l).
Qed.




Lemma new_writes_printed msg w : new_writes w (printed msg w) = [].
Proof. unfold new_writes, printed. cbn. by apply drop_all. Qed.

Lemma new_writes_wrote to_write w :
  new_writes w (wrote to_write w) = map_to_list to_write.
Proof. unfold new_writes, wrote. cbn. by rewrite drop_app_length. Qed.

(** *** Writing the files one after the other *)

Lemma write_all_cons path text rest w :
  write_all ((path, text) :: rest) w =
  if bool_decide (dirname path ∈ dirs w) then
    write_all rest
      {| fs := <[path := {| mtime := clock w; content := text |}]> (fs w);
         dirs := dirs w; stdout := stdout w; clock := clock w;
         written := written w ++ [(path, text)] |}
  else (Raise (OSError path), w).
Proof.
  cbn [write_all]. unfold mbind, Py_bind, open_write.
  by destruct (bool_decide (dirname path ∈ dirs w)).
Qed.

Lemma write_all_ok entries w :
  NoDup entries.*1 →
  (∀ e, e ∈ entries → dirname e.1 ∈ dirs w) →
  write_all entries w =
  (Ok tt,
   {| fs := ((fun text => {| mtime := clock w; content := text |}) <$>
               (list_to_map entries : gmap string string)) ∪ fs w;
      dirs := dirs w; stdout := stdout w; clock := clock w;
      written := written w ++ entries |}).
Proof.
  revert w. induction entries as [|[path text] rest IH]; intros w Hnd Hw.
  - cbn. rewrite fmap_empty, (left_id_L ∅ (∪)), app_nil_r. by destruct w.
  - rewrite fmap_cons in Hnd. apply NoDup_cons in Hnd as [Hnotin Hnd].
    rewrite write_all_cons, bool_decide_eq_true_2 by (apply (Hw (path, text)); by left).
    rewrite IH; [|done|intros e He; apply Hw; by right].
    cbn [fs dirs stdout clock written list_to_map foldr uncurry].
    f_equal. f_equal.
    + rewrite fmap_insert, <- insert_union_l, insert_union_r; [done|].
      rewrite lookup_fmap. by rewrite (not_elem_of_list_to_map_1 _ _ Hnotin).
    + by rewrite <- app_assoc.
Qed.

Lemma write_all_Ok_inv entries w w1 :
  write_all entries w = (Ok tt, w1) → ∀ e, e ∈ entries → dirname e.1 ∈ dirs w.
Proof.
  revert w. induction entries as [|[path text] rest IH]; intros w Hrun e He.
  - by apply elem_of_nil in He.
  - rewrite write_all_cons in Hrun. case_bool_decide as Hd; [|done].
    apply elem_of_cons in He as [->|He]; [done|].
    by apply (IH _ Hrun e He).
Qed.

(** The first path that cannot be opened ends the writes with [OSError]. *)
Lemma write_all_fails entries w e :
  e ∈ entries → dirname e.1 ∉ dirs w →
  ∃ path w',
    write_all entries w = (Raise (OSError path), w') ∧
    path ∈ entries.*1 ∧ (dirname path ∉ dirs w) ∧
    stdout w' = stdout w ∧
    (∀ q, q ∉ entries.*1 → fs w' !! q = fs w !! q).
Proof.
  revert w. induction entries as [|[path text] rest IH]; intros w He Hd.
  - by apply elem_of_nil in He.
  - rewrite write_all_cons. case_bool_decide as Hp.
    + apply elem_of_cons in He as [->|He]; [done|].
      match goal with
      | |- context [write_all rest ?w1] =>
          destruct (IH w1 He Hd) as (path' & w' & Hrun & Hin & Hnd & Hout & Hfs)
      end.
      exists path', w'. split; [done|]. split; [by right|]. split; [done|].
      split; [done|]. intros q Hq. rewrite fmap_cons in Hq.
      apply not_elem_of_cons in Hq as [Hne Hq].
      rewrite (Hfs q Hq). cbn [fs]. by rewrite lookup_insert_ne.
    + exists path, w. split; [done|]. split; [by left|]. done.
Qed.

Lemma write_files_ok to_write w :
  (∀ p, is_Some (to_write !! p) → dirname p ∈ dirs w) →
  write_files to_write w = (Ok tt, wrote to_write w).
Proof.
  intros Hw. unfold write_files, wrote. rewrite write_all_ok.
  - by rewrite list_to_map_to_list.
  - apply NoDup_fst_map_to_list.
  - intros [p t] He. apply elem_of_map_to_list in He. apply Hw. by eexists.
Qed.

Lemma write_files_Ok_inv to_write w w1 :
  write_files to_write w = (Ok tt, w1) →
  (∀ p, is_Some (to_write !! p) → dirname p ∈ dirs w) ∧ w1 = wrote to_write w.
Proof.
  intros Hrun.
  assert (∀ p, is_Some (to_write !! p) → dirname p ∈ dirs w) as Hw.
  { intros p [t Ht]. apply (write_all_Ok_inv _ _ _ Hrun (p, t)).
    by apply elem_of_map_to_list. }
  split; [done|]. rewrite (write_files_ok _ _ Hw) in Hrun. by injection Hrun.
Qed.

Lemma write_files_fails to_write w p :
  is_Some (to_write !! p) → dirname p ∉ dirs w →
  ∃ path w',
    write_files to_write w = (Raise (OSError path), w') ∧
    is_Some (to_write !! path) ∧ (dirname path ∉ dirs w) ∧
    stdout w' = stdout w ∧
    (∀ q, to_write !! q = None → fs w' !! q = fs w !! q).
Proof.
  intros [t Ht] Hd.
  destruct (write_all_fails (map_to_list to_write) w (p, t))
    as (path & w' & Hrun & Hin & Hnd & Hout & Hfs); [by apply elem_of_map_to_list|done|].
  exists path, w'. split; [done|]. split.
  { apply list_elem_of_fmap in Hin as ([q x] & -> & Hin).
    apply elem_of_map_to_list in Hin. by eexists. }
  split; [done|]. split; [done|].
  intros q Hq. apply Hfs. intros Hin'.
  apply list_elem_of_fmap in Hin' as ([q' x] & -> & Hin').
  apply elem_of_map_to_list in Hin'. cbn in Hq. congruence.
Qed.


End RunFacts.

(** ** Properties of [make_all] *)

(** C6.  When every prospective output file exists and is newer than the
    script and both signature files, a run of [make_all] returns normally,
    writes no file, leaves the file system as it was and prints the
    up-to-date message; a second run from the world the first one left
    does the same. *)
Theorem fresh_outputs_skip_generation
    (wc : WrappersCommon) (script_file outdir bf lf : string) (accelerate : bool)
    (w : World) (fb fl : File) (bs ls : list Sig.t) :
  fs w !! bf = Some fb →
  fs w !! lf = Some fl →
  read_signatures wc (PyStr.readlines (content fb)) = Ok bs →
  read_signatures wc (PyStr.readlines (content fl)) = Ok ls →
  outputs_fresh w (file_path outdir <$> (bs ++ ls)) [script_file; bf; lf] →
  let run1 := make_all wc script_file outdir bf lf accelerate w in
  let run2 := make_all wc script_file outdir bf lf accelerate run1.2 in
  run1.1 = Ok tt ∧
  written run1.2 = written w ∧ new_writes w run1.2 = [] ∧
  fs run1.2 = fs w ∧
  stdout run1.2 = stdout w ++ [up_to_date_message] ∧
  run2.1 = Ok tt ∧
  written run2.2 = written w ∧ new_writes run1.2 run2.2 = [] ∧
  fs run2.2 = fs w ∧
  stdout run2.2 = stdout w ++ [up_to_date_message; up_to_date_message].
Proof.
  intros Hb Hl Hbs Hls Hfresh. cbv zeta.
  assert (∀ w', fs w' = fs w →
            make_all wc script_file outdir bf lf accelerate w' =
            (Ok tt, printed up_to_date_message w')) as Hrun.
  { intros w' Hfs. rewrite make_all_eq.
    rewrite (parsed_ok wc w' bf lf fb fl bs ls) by (by rewrite ?Hfs).
    rewrite all_newer_in_fresh; [done|].
    intros dst Hdst. destruct (Hfresh dst Hdst) as (d & Hd & Hsrc).
    exists d. rewrite Hfs. by split. }
  rewrite (Hrun w eq_refl). cbn [fst snd].
  rewrite (Hrun (printed up_to_date_message w) eq_refl). cbn [fst snd].
  rewrite !new_writes_printed. cbn. rewrite <- app_assoc. done.
Qed.

Lemma fresh_outputs_skip_generation_witness :
  outputs_fresh Sample.fresh
    (file_path Sample.outdir <$>
       ([Sample.daxpy; Sample.cdotc; Sample.lsame] ++ [Sample.dlamch]))
    [Sample.script; Sample.blas_file; Sample.lapack_file] ∧
  (make_all Sample.common Sample.script Sample.outdir Sample.blas_file
     Sample.lapack_file false Sample.fresh).1 = Ok tt ∧
  written (make_all Sample.common Sample.script Sample.outdir Sample.blas_file
             Sample.lapack_file false Sample.fresh).2 = [].
Proof.
  assert (outputs_fresh Sample.fresh
            (file_path Sample.outdir <$>
               ([Sample.daxpy; Sample.cdotc; Sample.lsame] ++ [Sample.dlamch]))
            [Sample.script; Sample.blas_file; Sample.lapack_file]) as Hfresh.
  { intros dst Hdst. vm_compute in Hdst.
    exists {| mtime := 40; content := "old" |}.
    repeat (apply elem_of_cons in Hdst as [->|Hdst]);
      [| | | |by apply elem_of_nil in Hdst];
      (split; [vm_compute; reflexivity|]);
      intros src s Hsrc;
      repeat (apply elem_of_cons in Hsrc as [->|Hsrc]);
      try (by apply elem_of_nil in Hsrc);
      vm_compute; intros [= <-]; reflexivity. }
  split; [exact Hfresh|].
  destruct (fresh_outputs_skip_generation Sample.common Sample.script Sample.outdir
              Sample.blas_file Sample.lapack_file false Sample.fresh
              {| mtime := 20; content := Sample.blas_text |}
              {| mtime := 30; content := Sample.lapack_text |}
              [Sample.daxpy; Sample.cdotc; Sample.lsame] [Sample.dlamch])
    as (Hr & Hw & _); [vm_compute; reflexivity ..| exact Hfresh |].
  split; [exact Hr | exact Hw].
Defined.

(** C7.  When some input file (the script or a signature file) is newer
    than some output file, a run of [make_all] on signatures that all
    generate, with no path shared by the two libraries and every output
    directory writable, writes the file of every signature of both
    libraries, with the text [generate_file_wrapper] returned for it, and
    writes nothing else. *)
Theorem stale_output_regenerates_every_file
    (wc : WrappersCommon) (script_file outdir bf lf : string) (accelerate : bool)
    (w : World) (fb fl : File) (bs ls : list Sig.t)
    (src dst : string) (s d : File) :
  fs w !! bf = Some fb →
  fs w !! lf = Some fl →
  read_signatures wc (PyStr.readlines (content fb)) = Ok bs →
  read_signatures wc (PyStr.readlines (content fl)) = Ok ls →
  src ∈ [script_file; bf; lf] →
  dst ∈ file_path outdir <$> (bs ++ ls) →
  fs w !! src = Some s → fs w !! dst = Some d → (mtime d < mtime s)%Z →
  Forall (generates wc accelerate) (bs ++ ls) →
  (∀ b l, b ∈ bs → l ∈ ls → file_path outdir b ≠ file_path outdir l) →
  outputs_writable w (file_path outdir <$> (bs ++ ls)) →
  ∃ blas_wrappers lapack_wrappers w',
    generate_file_wrapper wc script_file bs "BLAS" accelerate outdir = Ok blas_wrappers ∧
    generate_file_wrapper wc script_file ls "LAPACK" accelerate outdir = Ok lapack_wrappers ∧
    make_all wc script_file outdir bf lf accelerate w = (Ok tt, w') ∧
    stdout w' = stdout w ∧
    new_writes w w' = map_to_list (blas_wrappers ∪ lapack_wrappers) ∧
    (∀ sig, sig ∈ bs ++ ls →
       ∃ text,
         ((sig ∈ bs ∧ blas_wrappers !! file_path outdir sig = Some text) ∨
          (sig ∈ ls ∧ lapack_wrappers !! file_path outdir sig = Some text)) ∧
         (file_path outdir sig, text) ∈ new_writes w w' ∧
         fs w' !! file_path outdir sig = Some {| mtime := clock w; content := text |}) ∧
    (∀ p text, (p, text) ∈ new_writes w w' → p ∈ file_path outdir <$> (bs ++ ls)).
Proof.
  intros Hb Hl Hbs Hls Hsrc Hdst Hs Hd Hlt Hg Hdisj Hwr.
  destruct (to_write_of_ok wc script_file outdir accelerate bs ls Hg Hdisj)
    as (bw & lw & Hbw & Hlw & Htw).
  set (w' := wrote (bw ∪ lw) w).
  assert (make_all wc script_file outdir bf lf accelerate w = (Ok tt, w')) as Hrun.
  { rewrite make_all_eq, (parsed_ok wc w bf lf fb fl bs ls) by done.
    rewrite (all_newer_in_stale w _ _ src dst s d) by done.
    rewrite Htw. apply write_files_ok. intros p Hp. apply Hwr.
    rewrite fmap_app. apply elem_of_app.
    apply lookup_union_is_Some in Hp as [Hp|Hp].
    - left. by apply (generate_file_wrapper_keys wc _ _ _ _ _ _ _ Hbw).
    - right. by apply (generate_file_wrapper_keys wc _ _ _ _ _ _ _ Hlw). }
  assert (new_writes w w' = map_to_list (bw ∪ lw)) as Hnew
    by apply new_writes_wrote.
  exists bw, lw, w'. split; [done|]. split; [done|]. split; [done|].
  split; [done|]. split; [done|]. split.
  - intros sig Hin.
    assert (∃ text,
              ((sig ∈ bs ∧ bw !! file_path outdir sig = Some text) ∨
               (sig ∈ ls ∧ lw !! file_path outdir sig = Some text)) ∧
              (bw ∪ lw) !! file_path outdir sig = Some text) as (text & Hside & Hu).
    { apply elem_of_app in Hin as [Hin|Hin].
      - destruct (generate_file_wrapper_has_path wc _ _ _ _ _ _ _ Hbw Hin) as [text Ht].
        exists text. split; [by left|]. by apply lookup_union_Some_l.
      - destruct (generate_file_wrapper_has_path wc _ _ _ _ _ _ _ Hlw Hin) as [text Ht].
        exists text. split; [by right|].
        rewrite lookup_union_r; [done|].
        destruct (bw !! file_path outdir sig) as [x|] eqn:Hx; [|done]. exfalso.
        assert (file_path outdir sig ∈ file_path outdir <$> bs) as Hpb.
        { apply (generate_file_wrapper_keys wc _ _ _ _ _ _ _ Hbw). by eexists. }
        apply list_elem_of_fmap in Hpb as (b & Heq & Hb').
        by apply (Hdisj b sig). }
    exists text. split; [done|]. split.
    + rewrite Hnew. by apply elem_of_map_to_list.
    + unfold w', wrote. cbn [fs].
      apply lookup_union_Some_l. by rewrite lookup_fmap, Hu.
  - intros p text Hin. rewrite Hnew in Hin. apply elem_of_map_to_list in Hin.
    rewrite fmap_app. apply elem_of_app.
    apply lookup_union_Some_raw in Hin as [Hin|[_ Hin]].
    + left. apply (generate_file_wrapper_keys wc _ _ _ _ _ _ _ Hbw). by eexists.
    + right. apply (generate_file_wrapper_keys wc _ _ _ _ _ _ _ Hlw). by eexists.
Qed.

Lemma stale_output_regenerates_every_file_witness :
  Forall (generates Sample.common false)
    ([Sample.daxpy; Sample.cdotc; Sample.lsame] ++ [Sample.dlamch]) ∧
  ∃ w' text,
    make_all Sample.common Sample.script Sample.outdir Sample.blas_file
      Sample.lapack_file false Sample.stale = (Ok tt, w') ∧
    ("/build/dlamch.c", text) ∈ new_writes Sample.stale w' ∧
    length (new_writes Sample.stale w') = 4.
Proof.
  assert (Forall (generates Sample.common false)
            ([Sample.daxpy; Sample.cdotc; Sample.lsame] ++ [Sample.dlamch])) as Hg.
  { repeat first [apply Forall_nil_2 | apply Forall_cons_2].
    - right. split; [by eexists; vm_compute | repeat constructor; by eexists; vm_compute].
    - left. left. compute_done.
    - right. split; [by eexists; vm_compute | repeat constructor; by eexists; vm_compute].
    - right. split; [by eexists; vm_compute | repeat constructor; by eexists; vm_compute]. }
  split; [exact Hg|].
  destruct (stale_output_regenerates_every_file Sample.common Sample.script Sample.outdir
              Sample.blas_file Sample.lapack_file false Sample.stale
              {| mtime := 45; content := Sample.blas_text |}
              {| mtime := 30; content := Sample.lapack_text |}
              [Sample.daxpy; Sample.cdotc; Sample.lsame] [Sample.dlamch]
              Sample.blas_file "/build/daxpy.c"
              {| mtime := 45; content := Sample.blas_text |}
              {| mtime := 40; content := "old" |})
    as (bw & lw & w' & Hbw & Hlw & Hrun & _ & Hnew & Hall & _).
  - vm_compute; reflexivity.
  - vm_compute; reflexivity.
  - vm_compute; reflexivity.
  - vm_compute; reflexivity.
  - right; left.
  - left.
  - vm_compute; reflexivity.
  - vm_compute; reflexivity.
  - vm_compute; reflexivity.
  - exact Hg.
  - intros b l Hb Hl. apply list_elem_of_singleton in Hl as ->.
    repeat (apply elem_of_cons in Hb as [->|Hb]);
      [| | |by apply elem_of_nil in Hb]; by vm_compute.
  - intros dst Hdst. vm_compute in Hdst.
    repeat (apply elem_of_cons in Hdst as [->|Hdst]);
      [| | | |by apply elem_of_nil in Hdst]; compute_done.
  - destruct (Hall Sample.dlamch) as (text & _ & Hin & _).
    { apply elem_of_app. right. left. }
    exists w', text. split; [exact Hrun|]. split; [exact Hin|].
    rewrite Hnew. vm_compute in Hbw, Hlw.
    injection Hbw as <-. injection Hlw as <-. by vm_compute.
Defined.

(** ** Errors and edge cases of the declaration generator *)

Section DeclErrors.
Import PyStr.

Context (wc : WrappersCommon).

Lemma getitems_first_unknown (d : gmap string string) (known rest : list string) (t : string) :
  Forall (fun k => is_Some (d !! k)) known → d !! t = None →
  getitems d (known ++ t :: rest) = Raise (KeyError t).
Proof.
  intros Hk Ht. induction Hk as [|k known [v Hv] _ IH]; cbn [app getitems].
  - unfold getitem. by rewrite Ht.
  - rewrite (getitem_Some _ _ _ Hv). cbn [mbind result_bind]. by rewrite IH.
Qed.

Lemma getitems_Ok_inv (d : gmap string string) (keys vs : list string) :
  getitems d keys = Ok vs → Forall2 (fun t v => d !! t = Some v) keys vs.
Proof.
  revert vs. induction keys as [|k keys IH]; intros vs; cbn [getitems].
  - intros [= <-]. constructor.
  - unfold getitem. destruct (d !! k) as [v|] eqn:Hk; [|done].
    cbn [mbind result_bind].
    destruct (getitems d keys) as [vs'|e]; [|done].
    cbn [mbind result_bind]. intros [= <-]. constructor; [done|by apply IH].
Qed.

Lemma not_excluded_guards name accelerate :
  not_excluded wc name accelerate →
  bool_decide (name ∈ WRAPPED_FUNCS wc) = false ∧
  accelerate && bool_decide (name ∈ USE_OLD_ACCELERATE wc) = false.
Proof.
  intros [Hw Hl]. split; [by apply bool_decide_eq_false_2|].
  destruct accelerate; [|done]. simpl. apply bool_decide_eq_false_2. by apply Hl.
Qed.

(** A returned string comes from the template whenever no exception set
    covers the name. *)
Lemma generate_decl_wrapper_kw_Ok_inv sig accelerate text :
  not_excluded wc (Sig.name sig) accelerate →
  generate_decl_wrapper_kw wc sig accelerate = Ok text →
  ∃ c_ret c_argtypes,
    c_types_of wc sig c_ret c_argtypes ∧
    text = wrapper_text wc sig accelerate c_ret c_argtypes.
Proof.
  intros Hne Heq.
  assert (known_types wc sig) as Hk.
  { destruct (not_excluded_guards _ _ Hne) as [Hw Hl].
    unfold generate_decl_wrapper_kw, generate_decl_wrapper in Heq.
    rewrite Hw, Hl in Heq. unfold getitem in Heq.
    destruct (C_TYPES wc !! Sig.return_type sig) as [c_ret|] eqn:Hret; [|done].
    cbn [mbind result_bind] in Heq.
    destruct (getitems (C_TYPES wc) (Sig.argtypes sig)) as [vs|e] eqn:Hvs; [|done].
    split; [by eexists|].
    apply getitems_Ok_inv in Hvs. clear -Hvs.
    induction Hvs; constructor; [by eexists|done]. }
  destruct (generate_decl_wrapper_kw_render wc sig accelerate Hne Hk)
    as (c_ret & c_argtypes & Ht & Heq').
  exists c_ret, c_argtypes. split; [done|]. congruence.
Qed.

End DeclErrors.

(** X1.  When no exception set covers the name and the return type is
    not a key of [C_TYPES], the call raises [KeyError] for the return
    type, whatever the argument types are: line 57 runs before line 58. *)
Theorem unknown_return_type_raises
    (wc : WrappersCommon) (name return_type : string) (argnames argtypes : list string)
    (accelerate : bool) :
  not_excluded wc name accelerate →
  C_TYPES wc !! return_type = None →
  generate_decl_wrapper wc name return_type argnames argtypes accelerate =
    Raise (KeyError return_type).
Proof.
  intros Hne Hret. destruct (not_excluded_guards wc _ _ Hne) as [Hw Hl].
  unfold generate_decl_wrapper. rewrite Hw, Hl. unfold getitem. by rewrite Hret.
Qed.

Lemma unknown_return_type_raises_witness :
  generate_decl_wrapper Sample.common "daxpy" "float64" ["n"] ["nope"] true =
    Raise (KeyError "float64").
Proof.
  apply unknown_return_type_raises.
  - split; [compute_done | intros _; compute_done].
  - vm_compute; reflexivity.
Defined.

(** X2.  With a known return type, the call raises [KeyError] for the
    first argument type that is not a key of [C_TYPES].  Every argument
    type is looked up, also those beyond the last argument name, so a
    shorter list of names does not hide an unknown type. *)
Theorem unknown_argument_type_raises
    (wc : WrappersCommon) (name return_type : string) (argnames : list string)
    (known rest : list string) (t : string) (accelerate : bool) :
  not_excluded wc name accelerate →
  is_Some (C_TYPES wc !! return_type) →
  Forall (fun k => is_Some (C_TYPES wc !! k)) known →
  C_TYPES wc !! t = None →
  generate_decl_wrapper wc name return_type argnames (known ++ t :: rest) accelerate =
    Raise (KeyError t).
Proof.
  intros Hne [c_ret Hret] Hk Ht. destruct (not_excluded_guards wc _ _ Hne) as [Hw Hl].
  unfold generate_decl_wrapper. rewrite Hw, Hl.
  rewrite (getitem_Some _ _ _ Hret). cbn [mbind result_bind].
  by rewrite (getitems_first_unknown _ _ _ _ Hk Ht).
Qed.

Lemma unknown_argument_type_raises_witness :
  generate_decl_wrapper Sample.common "daxpy" "void" ["n"]
    (["int"; "d"] ++ "float64" :: ["nope"]) false = Raise (KeyError "float64").
Proof.
  apply unknown_argument_type_raises.
  - split; [compute_done | discriminate].
  - by eexists; vm_compute.
  - repeat constructor; by eexists; vm_compute.
  - vm_compute; reflexivity.
Defined.

(** X3.  The call of line 85 returns a string exactly when the routine
    is excluded or all the types of its signature are keys of [C_TYPES];
    in every other case it raises. *)
Theorem returns_iff_excluded_or_known_types
    (wc : WrappersCommon) (sig : Sig.t) (accelerate : bool) :
  (∃ text, generate_decl_wrapper_kw wc sig accelerate = Ok text) ↔
  generates wc accelerate sig.
Proof.
  split.
  - intros [text Heq].
    destruct (excluded_or_not wc (Sig.name sig) accelerate) as [He|Hne]; [by left|].
    right. destruct (generate_decl_wrapper_kw_Ok_inv wc _ _ _ Hne Heq)
      as (c_ret & c_argtypes & [Hret Hvs] & _).
    split; [by eexists|]. clear -Hvs. induction Hvs; constructor; [by eexists|done].
  - intros Hg. destruct (generates_ok wc sig accelerate Hg) as (decl & Hd & _).
    by exists decl.
Qed.

(** X4.  The returned string is empty exactly when one of the two
    exception sets covers the routine: a rendered wrapper is never
    empty, so an empty file body always means an excluded routine. *)
Theorem empty_wrapper_iff_excluded
    (wc : WrappersCommon) (sig : Sig.t) (accelerate : bool) :
  generate_decl_wrapper_kw wc sig accelerate = Ok EmptyString ↔
  excluded wc (Sig.name sig) accelerate.
Proof.
  split.
  - intros Heq.
    destruct (excluded_or_not wc (Sig.name sig) accelerate) as [He|Hne]; [done|].
    destruct (generate_decl_wrapper_kw_Ok_inv wc _ _ _ Hne Heq)
      as (c_ret & c_argtypes & _ & Htext).
    symmetry in Htext. by apply wrapper_text_nonempty in Htext.
  - apply generate_decl_wrapper_kw_excluded.
Qed.

(** X5.  When the lists of argument types and of argument names differ
    in length, [zip] cuts the parameter list of both C functions to the
    shorter one, while the forwarding call still passes every argument
    name. *)
Theorem parameter_list_is_cut_to_the_shorter_list
    (wc : WrappersCommon) (sig : Sig.t) (accelerate : bool)
    (c_ret : string) (c_argtypes : list string) :
  not_excluded wc (Sig.name sig) accelerate →
  c_types_of wc sig c_ret c_argtypes →
  let macro := (get_blas_macro_and_name wc (Sig.name sig) accelerate).1 in
  let symbol := (get_blas_macro_and_name wc (Sig.name sig) accelerate).2 in
  ∃ params,
    generate_decl_wrapper_kw wc sig accelerate =
      Ok (PyStr.concat_all
            [PyStr.NL; extern_declaration c_ret macro symbol params; PyStr.NL;
             forwarding_definition c_ret (Sig.name sig) macro symbol params
               (Sig.argnames sig);
             PyStr.NL]) ∧
    length params = length (Sig.argtypes sig) `min` length (Sig.argnames sig) ∧
    ∀ i ct n, c_argtypes !! i = Some ct → Sig.argnames sig !! i = Some n →
      params !! i = Some (ct +:+ " *" +:+ n).
Proof.
  intros Hne Ht. cbv zeta.
  exists (zip_with pointer_param c_argtypes (Sig.argnames sig)).
  split; [by apply generate_decl_wrapper_kw_typed|].
  destruct Ht as [_ Hvs]. split.
  - rewrite length_zip_with. by rewrite (Forall2_length _ _ _ Hvs).
  - intros i ct n Hct Hn. by rewrite lookup_zip_with, Hct, Hn.
Qed.

Lemma parameter_list_is_cut_to_the_shorter_list_witness :
  ∃ params,
    generate_decl_wrapper_kw Sample.common
      (Sig.Build "daxpy" "void" ["n"; "da"; "dx"] ["int"]) false =
      Ok (PyStr.concat_all
            [PyStr.NL; extern_declaration "void" "BLAS_FUNC" "daxpy" params; PyStr.NL;
             forwarding_definition "void" "daxpy" "BLAS_FUNC" "daxpy" params
               ["n"; "da"; "dx"];
             PyStr.NL]) ∧
    length params = 1.
Proof.
  destruct (parameter_list_is_cut_to_the_shorter_list Sample.common
              (Sig.Build "daxpy" "void" ["n"; "da"; "dx"] ["int"]) false "void" ["int"])
    as (params & Heq & Hlen & _).
  - split; [compute_done | discriminate].
  - split; [vm_compute; reflexivity | lookups].
  - exists params. split; [exact Heq | exact Hlen].
Defined.

(** ** Errors, composition and paths of the file assembler *)

Section AssemblerEdges.
Import PyStr.

Context (wc : WrappersCommon) (script_file : string).

Lemma loop_app pre accelerate outdir l1 l2 wrappers :
  generate_file_wrapper_loop wc pre accelerate outdir (l1 ++ l2) wrappers =
  (m ← generate_file_wrapper_loop wc pre accelerate outdir l1 wrappers;
   generate_file_wrapper_loop wc pre accelerate outdir l2 m).
Proof.
  revert wrappers. induction l1 as [|sig l1 IH]; intros wrappers; [done|].
  cbn [app generate_file_wrapper_loop].
  destruct (file_text wc pre sig accelerate) as [text|e]; [|done].
  cbn [mbind result_bind]. apply IH.
Qed.

(** Starting from a dict that already has entries gives what starting
    from the empty dict gives, laid over those entries. *)
Lemma loop_from pre accelerate outdir sigs wrappers :
  generate_file_wrapper_loop wc pre accelerate outdir sigs wrappers =
  (m ← generate_file_wrapper_loop wc pre accelerate outdir sigs ∅; Ok (m ∪ wrappers)).
Proof.
  revert wrappers. induction sigs as [|sig rest IH]; intros wrappers.
  - cbn. by rewrite (left_id_L ∅ (∪)).
  - cbn [generate_file_wrapper_loop].
    destruct (file_text wc pre sig accelerate) as [text|e]; [|done].
    cbn [mbind result_bind].
    rewrite (IH (<[file_path outdir sig:=text]> wrappers)).
    rewrite (IH (<[file_path outdir sig:=text]> ∅)).
    destruct (generate_file_wrapper_loop wc pre accelerate outdir rest ∅) as [m|e]; [|done].
    cbn [mbind result_bind]. f_equal.
    rewrite insert_empty, (insert_union_singleton_l wrappers).
    by rewrite (assoc_L (∪)).
Qed.

Lemma generate_file_wrapper_first_failure l1 sig l2 lib_name accelerate outdir e :
  lib_name = "BLAS" ∨ lib_name = "LAPACK" →
  Forall (generates wc accelerate) l1 →
  generate_decl_wrapper_kw wc sig accelerate = Raise e →
  generate_file_wrapper wc script_file (l1 ++ sig :: l2) lib_name accelerate outdir =
    Raise e.
Proof.
  intros Hlib Hg He.
  assert (∃ pre, preamble_of wc script_file lib_name = Some pre) as [pre Hpre].
  { destruct Hlib as [-> | ->]; by eexists. }
  unfold generate_file_wrapper. rewrite Hpre, loop_app.
  destruct (loop_ok wc pre accelerate outdir l1 ∅ Hg) as [m ->].
  cbn [mbind result_bind generate_file_wrapper_loop].
  unfold file_text. cbn [mbind result_bind]. by rewrite He.
Qed.

Lemma length_app_str (s t : string) :
  String.length (s +:+ t) = String.length s + String.length t.
Proof. induction s as [|a s IH]; [done|]. rewrite app_cons. simpl. by rewrite IH. Qed.

Lemma app_inv_tail_str (s t u : string) : s +:+ u = t +:+ u → s = t.
Proof.
  revert t. induction s as [|a s IH]; intros [|b t] H; [done| | |].
  - apply (f_equal String.length) in H.
    rewrite app_empty_l, app_cons in H. simpl in H. rewrite length_app_str in H. lia.
  - apply (f_equal String.length) in H.
    rewrite app_empty_l, app_cons in H. simpl in H. rewrite length_app_str in H. lia.
  - rewrite !app_cons in H. injection H as -> H. f_equal. by apply IH.
Qed.

Lemma startswith_slash_dot_c (name : string) :
  startswith "/" (name +:+ ".c") = startswith "/" name.
Proof. by destruct name. Qed.

Lemma file_path_inj outdir s1 s2 :
  startswith "/" (Sig.name s1) = false →
  startswith "/" (Sig.name s2) = false →
  file_path outdir s1 = file_path outdir s2 →
  Sig.name s1 = Sig.name s2.
Proof.
  unfold file_path, os_path_join. rewrite !startswith_slash_dot_c.
  intros -> -> H. apply (app_inv_tail_str _ _ ".c").
  destruct (bool_decide (outdir = EmptyString) || endswith_char "/" outdir).
  - by apply (inj (String.app outdir)) in H.
  - apply (inj (String.app outdir)) in H. by apply (inj (String.app "/")) in H.
Qed.

Lemma basename_go_no_slash (cur s : string) :
  count_char "/" s = 0 → basename_go cur s = cur.
Proof.
  revert cur. induction s as [|a s IH]; intros cur; [done|]. simpl.
  destruct (decide (a = "/"%char)); [done|]. intros H. by apply IH.
Qed.

Lemma basename_go_after_slash (cur x y : string) :
  count_char "/" y = 0 → basename_go cur (x +:+ "/" +:+ y) = y.
Proof.
  intros Hy. revert cur. induction x as [|a x IH]; intros cur.
  - rewrite app_empty_l. change ("/" +:+ y) with (String "/" y). simpl.
    by apply basename_go_no_slash.
  - rewrite app_cons. simpl. destruct (decide (a = "/"%char)); apply IH.
Qed.

Lemma endswith_char_split (c : ascii) (a : string) :
  endswith_char c a = true → ∃ x, a = x +:+ String c EmptyString.
Proof.
  induction a as [|b a IH]; [done|]. destruct a as [|b' a].
  - simpl. intros H. apply bool_decide_eq_true_1 in H as ->. by exists EmptyString.
  - intros H. destruct (IH H) as [x Hx]. exists (String b x).
    by rewrite app_cons, <- Hx.
Qed.

Lemma no_slash_no_leading_slash (name : string) :
  count_char "/" name = 0 → startswith "/" name = false.
Proof.
  destruct name as [|a name]; [done|]. simpl.
  destruct (decide ("/"%char = a)) as [<-|]; [|done].
  by rewrite decide_True.
Qed.

End AssemblerEdges.

(** X6.  For a library name other than [BLAS] and [LAPACK] no branch of
    lines 77-80 binds [preamble]: an empty signature list still gives the
    empty dict, and any other list raises [UnboundLocalError] at the first
    signature, before [generate_decl_wrapper] is called. *)
Theorem unknown_library_name
    (wc : WrappersCommon) (script_file lib_name : string) (accelerate : bool)
    (outdir : string) :
  lib_name ≠ "BLAS" → lib_name ≠ "LAPACK" →
  generate_file_wrapper wc script_file [] lib_name accelerate outdir = Ok ∅ ∧
  ∀ sig rest,
    generate_file_wrapper wc script_file (sig :: rest) lib_name accelerate outdir =
      Raise (UnboundLocalError "preamble").
Proof.
  intros Hb Hl. split; [done|]. intros sig rest.
  unfold generate_file_wrapper, preamble_of.
  by rewrite !bool_decide_eq_false_2.
Qed.

Lemma unknown_library_name_witness :
  generate_file_wrapper Sample.common Sample.script
    [Sig.Build "daxpy" "float64" [] []] "blas" false "/build" =
    Raise (UnboundLocalError "preamble").
Proof.
  apply (unknown_library_name Sample.common Sample.script "blas" false "/build");
    discriminate.
Defined.

(** X7.  The first signature whose call of [generate_decl_wrapper] raises
    ends [generate_file_wrapper] with that exception: no dict is returned,
    although the signatures before it would have given one on their own. *)
Theorem first_failing_signature_aborts
    (wc : WrappersCommon) (script_file : string) (l1 : list Sig.t) (sig : Sig.t)
    (l2 : list Sig.t) (lib_name : string) (accelerate : bool) (outdir : string) (e : exn) :
  lib_name = "BLAS" ∨ lib_name = "LAPACK" →
  Forall (generates wc accelerate) l1 →
  generate_decl_wrapper_kw wc sig accelerate = Raise e →
  (∃ m, generate_file_wrapper wc script_file l1 lib_name accelerate outdir = Ok m) ∧
  generate_file_wrapper wc script_file (l1 ++ sig :: l2) lib_name accelerate outdir =
    Raise e.
Proof.
  intros Hlib Hg He. split.
  - destruct (generate_file_wrapper_ok wc script_file l1 lib_name accelerate outdir
                Hlib Hg) as (_ & m & _ & Hm).
    by exists m.
  - by apply generate_file_wrapper_first_failure.
Qed.

Lemma first_failing_signature_aborts_witness :
  generate_file_wrapper Sample.common Sample.script
    ([Sample.daxpy] ++ Sig.Build "dnrm2" "float64" ["n"] ["int"] :: [Sample.cdotc])
    "BLAS" false "/build" = Raise (KeyError "float64").
Proof.
  apply (first_failing_signature_aborts Sample.common Sample.script [Sample.daxpy]).
  - by left.
  - apply Forall_cons_2; [|apply Forall_nil_2]. right.
    split; [by eexists; vm_compute | repeat constructor; by eexists; vm_compute].
  - vm_compute; reflexivity.
Defined.

(** X8.  Assembling a list in two batches and laying the dict of the
    second batch over the dict of the first gives what assembling the
    whole list gives, exceptions included: later signatures win over
    earlier ones with the same path. *)
Theorem generate_file_wrapper_app
    (wc : WrappersCommon) (script_file : string) (sigs1 sigs2 : list Sig.t)
    (lib_name : string) (accelerate : bool) (outdir : string) :
  generate_file_wrapper wc script_file (sigs1 ++ sigs2) lib_name accelerate outdir =
  (m1 ← generate_file_wrapper wc script_file sigs1 lib_name accelerate outdir;
   m2 ← generate_file_wrapper wc script_file sigs2 lib_name accelerate outdir;
   Ok (m2 ∪ m1)).
Proof.
  unfold generate_file_wrapper. rewrite loop_app.
  destruct (generate_file_wrapper_loop wc _ accelerate outdir sigs1 ∅) as [m1|e]; [|done].
  cbn [mbind result_bind]. apply loop_from.
Qed.

(** X9.  Routine names that do not start with a slash map to distinct
    paths when they are distinct; a list of signatures with pairwise
    distinct such names therefore yields exactly one dict entry per
    signature. *)
Theorem distinct_names_get_distinct_files
    (wc : WrappersCommon) (script_file : string) (sigs : list Sig.t)
    (lib_name : string) (accelerate : bool) (outdir : string) :
  lib_name = "BLAS" ∨ lib_name = "LAPACK" →
  Forall (generates wc accelerate) sigs →
  Forall (fun sig => PyStr.startswith "/" (Sig.name sig) = false) sigs →
  NoDup (Sig.name <$> sigs) →
  (∀ s1 s2, s1 ∈ sigs → s2 ∈ sigs →
     file_path outdir s1 = file_path outdir s2 → Sig.name s1 = Sig.name s2) ∧
  ∃ m, generate_file_wrapper wc script_file sigs lib_name accelerate outdir = Ok m ∧
       size m = length sigs.
Proof.
  intros Hlib Hg Hslash Hnd.
  rewrite Forall_forall in Hslash. split.
  - intros s1 s2 H1 H2. apply file_path_inj; by apply Hslash.
  - destruct (generate_file_wrapper_ok wc script_file sigs lib_name accelerate outdir
                Hlib Hg) as (pre & m & Hpre & Hm).
    exists m. split; [done|].
    unfold generate_file_wrapper in Hm.
    rewrite (loop_size_NoDup wc _ _ _ _ _ _ Hm).
    + by rewrite map_size_empty.
    + clear -Hslash Hnd. induction sigs as [|s sigs IH]; [constructor|].
      rewrite fmap_cons in Hnd |- *. apply NoDup_cons in Hnd as [Hnotin Hnd].
      apply NoDup_cons. split.
      * intros Hin. apply Hnotin. apply list_elem_of_fmap in Hin as (s' & Heq & Hs').
        apply list_elem_of_fmap. exists s'. split; [|done].
        apply (file_path_inj outdir); [apply Hslash; by left | apply Hslash; by right | done].
      * apply IH; [|done]. intros x Hx. apply Hslash. by right.
    + intros s _. apply lookup_empty.
Qed.

Lemma distinct_names_get_distinct_files_witness :
  ∃ m, generate_file_wrapper Sample.common Sample.script
         [Sample.daxpy; Sample.cdotc; Sample.lsame] "BLAS" false "/build" = Ok m ∧
       size m = 3.
Proof.
  apply (distinct_names_get_distinct_files Sample.common Sample.script
           [Sample.daxpy; Sample.cdotc; Sample.lsame] "BLAS" false "/build").
  - by left.
  - repeat first [apply Forall_nil_2 | apply Forall_cons_2].
    + right. split; [by eexists; vm_compute | repeat constructor; by eexists; vm_compute].
    + left. left. compute_done.
    + right. split; [by eexists; vm_compute | repeat constructor; by eexists; vm_compute].
  - repeat constructor.
  - vm_compute. repeat constructor; compute_done.
Defined.

(** X10.  Where a file goes.  A routine name that starts with a slash
    replaces the output directory altogether; any other name gives a
    path that starts with the output directory; and for a name without
    any slash the file is named [name.c]. *)
Theorem output_file_location (outdir : string) (sig : Sig.t) :
  (PyStr.startswith "/" (Sig.name sig) = true →
     file_path outdir sig = Sig.name sig +:+ ".c") ∧
  (PyStr.startswith "/" (Sig.name sig) = false →
     PyStr.startswith outdir (file_path outdir sig) = true) ∧
  (PyStr.count_char "/" (Sig.name sig) = 0 →
     PyStr.basename (file_path outdir sig) = Sig.name sig +:+ ".c").
Proof.
  unfold file_path, PyStr.os_path_join. rewrite startswith_slash_dot_c.
  split; [by intros ->|]. split.
  - intros ->.
    destruct (bool_decide (outdir = EmptyString) || PyStr.endswith_char "/" outdir);
      apply startswith_app.
  - intros Hn. rewrite (no_slash_no_leading_slash _ Hn).
    assert (PyStr.count_char "/" (Sig.name sig +:+ ".c") = 0) as Hc.
    { rewrite count_char_app, Hn. done. }
    unfold PyStr.basename.
    destruct (bool_decide (outdir = EmptyString)) eqn:He.
    { apply bool_decide_eq_true_1 in He as ->. cbn [orb].
      rewrite app_empty_l. by apply basename_go_no_slash. }
    cbn [orb]. destruct (PyStr.endswith_char "/" outdir) eqn:Hs.
    + destruct (endswith_char_split _ _ Hs) as [x ->].
      rewrite app_assoc_str. by apply basename_go_after_slash.
    + by apply basename_go_after_slash.
Qed.

Lemma output_file_location_witness :
  file_path "/build" (Sig.Build "/etc/passwd" "void" [] []) = "/etc/passwd.c" ∧
  PyStr.startswith "/build" (file_path "/build" Sample.daxpy) = true ∧
  PyStr.basename (file_path "/build/" Sample.daxpy) = "daxpy.c".
Proof.
  split; [|split].
  - by apply (proj1 (output_file_location "/build" (Sig.Build "/etc/passwd" "void" [] []))).
  - by apply (proj1 (proj2 (output_file_location "/build" Sample.daxpy))).
  - by apply (proj2 (proj2 (output_file_location "/build/" Sample.daxpy))).
Defined.

(** ** Errors and repeated runs of [make_all] *)

Section RunEdges.
Import PyStr.

Context (wc : WrappersCommon) (script_file : string).

Lemma all_newer_in_missing w dst_files src_files dst :
  dst ∈ dst_files → fs w !! dst = None →
  all_newer_in w dst_files src_files = false.
Proof.
  intros Hdst Hnone.
  destruct (all_newer_in w dst_files src_files) eqn:E; [|done]. exfalso.
  unfold all_newer_in in E. rewrite forallb_forall in E.
  specialize (E dst (proj1 (list_elem_of_In _ _) Hdst)). by rewrite Hnone in E.
Qed.

Lemma all_newer_in_same_fs w w' dst_files src_files :
  fs w' = fs w →
  all_newer_in w' dst_files src_files = all_newer_in w dst_files src_files.
Proof. intros H. unfold all_newer_in, newer_than. by rewrite H. Qed.

Lemma parsed_same_lookups w w' bf lf :
  fs w' !! bf = fs w !! bf → fs w' !! lf = fs w !! lf →
  parsed wc w' bf lf = parsed wc w bf lf.
Proof. unfold parsed. by intros -> ->. Qed.

Lemma to_write_of_Ok_inv outdir accelerate bs ls to_write :
  to_write_of wc script_file outdir accelerate bs ls = Ok to_write →
  ∃ bw lw,
    generate_file_wrapper wc script_file bs "BLAS" accelerate outdir = Ok bw ∧
    generate_file_wrapper wc script_file ls "LAPACK" accelerate outdir = Ok lw ∧
    to_write = bw ∪ lw.
Proof.
  unfold to_write_of, dict_of_kwargs.
  destruct (generate_file_wrapper wc script_file bs "BLAS" accelerate outdir)
    as [bw|e]; [|done].
  destruct (generate_file_wrapper wc script_file ls "LAPACK" accelerate outdir)
    as [lw|e]; [|done].
  cbn [mbind result_bind]. case_bool_decide; [|done].
  intros [= <-]. by exists bw, lw.
Qed.

Lemma to_write_of_keys outdir accelerate bs ls to_write p :
  to_write_of wc script_file outdir accelerate bs ls = Ok to_write →
  is_Some (to_write !! p) → p ∈ file_path outdir <$> (bs ++ ls).
Proof.
  intros Htw Hp. apply to_write_of_Ok_inv in Htw as (bw & lw & Hbw & Hlw & ->).
  rewrite fmap_app. apply elem_of_app.
  apply lookup_union_is_Some in Hp as [Hp|Hp].
  - left. by apply (generate_file_wrapper_keys wc _ _ _ _ _ _ _ Hbw).
  - right. by apply (generate_file_wrapper_keys wc _ _ _ _ _ _ _ Hlw).
Qed.

Lemma to_write_of_has_path outdir accelerate bs ls to_write sig :
  to_write_of wc script_file outdir accelerate bs ls = Ok to_write →
  sig ∈ bs ++ ls → is_Some (to_write !! file_path outdir sig).
Proof.
  intros Htw Hin. apply to_write_of_Ok_inv in Htw as (bw & lw & Hbw & Hlw & ->).
  apply lookup_union_is_Some. apply elem_of_app in Hin as [Hin|Hin].
  - left. by apply (generate_file_wrapper_has_path wc _ _ _ _ _ _ _ Hbw).
  - right. by apply (generate_file_wrapper_has_path wc _ _ _ _ _ _ _ Hlw).
Qed.

(** The first signature that raises, in BLAS-then-LAPACK order, decides
    how lines 111-115 end. *)
Lemma to_write_of_first_failure outdir accelerate bs ls l1 sig l2 e :
  bs ++ ls = l1 ++ sig :: l2 →
  Forall (generates wc accelerate) l1 →
  generate_decl_wrapper_kw wc sig accelerate = Raise e →
  to_write_of wc script_file outdir accelerate bs ls = Raise e.
Proof.
  intros Heq Hg He. unfold to_write_of.
  apply app_eq_app in Heq as [l [[-> Hl]|[-> ->]]].
  - destruct l as [|s l].
    + cbn [app] in Hl. subst ls. rewrite app_nil_r.
      destruct (generate_file_wrapper_ok wc script_file l1 "BLAS" accelerate outdir
                  (or_introl eq_refl) Hg) as (_ & bw & _ & ->).
      cbn [mbind result_bind].
      pose proof (generate_file_wrapper_first_failure wc script_file [] sig l2 "LAPACK"
                    accelerate outdir e (or_intror eq_refl) (Forall_nil_2 _) He) as Hf.
      cbn [app] in Hf. by rewrite Hf.
    + cbn [app] in Hl. injection Hl as <- ->.
      by rewrite (generate_file_wrapper_first_failure wc script_file l1 sig l "BLAS"
                    accelerate outdir e (or_introl eq_refl) Hg He).
  - apply Forall_app in Hg as [Hgb Hgl].
    destruct (generate_file_wrapper_ok wc script_file bs "BLAS" accelerate outdir
                (or_introl eq_refl) Hgb) as (_ & bw & _ & ->).
    cbn [mbind result_bind].
    by rewrite (generate_file_wrapper_first_failure wc script_file l sig l2 "LAPACK"
                  accelerate outdir e (or_intror eq_refl) Hgl He).
Qed.

End RunEdges.

(** X11.  A missing signature file ends [make_all] with
    [FileNotFoundError] before anything is printed or written.  Both
    files are opened before either is parsed, so a missing LAPACK file is
    reported even when the BLAS file could not be parsed. *)
Theorem missing_signature_file
    (wc : WrappersCommon) (script_file outdir bf lf : string) (accelerate : bool)
    (w : World) :
  (fs w !! bf = None →
     make_all wc script_file outdir bf lf accelerate w =
       (Raise (FileNotFoundError bf), w)) ∧
  (is_Some (fs w !! bf) → fs w !! lf = None →
     make_all wc script_file outdir bf lf accelerate w =
       (Raise (FileNotFoundError lf), w)).
Proof.
  rewrite make_all_eq. unfold parsed. split.
  - by intros ->.
  - by intros [fb ->] ->.
Qed.

Lemma missing_signature_file_witness :
  make_all Sample.common Sample.script Sample.outdir Sample.blas_file Sample.lapack_file
    false {| fs := {[Sample.blas_file := {| mtime := 1; content := "not a signature" |}]};
             dirs := ∅; stdout := []; clock := 2; written := [] |} =
  (Raise (FileNotFoundError Sample.lapack_file),
   {| fs := {[Sample.blas_file := {| mtime := 1; content := "not a signature" |}]};
      dirs := ∅; stdout := []; clock := 2; written := [] |}).
Proof.
  apply (proj2 (missing_signature_file Sample.common Sample.script Sample.outdir
                  Sample.blas_file Sample.lapack_file false _)).
  - by eexists; vm_compute.
  - vm_compute; reflexivity.
Defined.

(** X12.  When the outputs are not all fresh, one signature whose types
    are unknown ends the whole run with its exception before any file is
    written: the files of the other signatures are not written either,
    and the world is left as it was. *)
Theorem bad_signature_aborts_the_run
    (wc : WrappersCommon) (script_file outdir bf lf : string) (accelerate : bool)
    (w : World) (bs ls l1 : list Sig.t) (sig : Sig.t) (l2 : list Sig.t) (e : exn) :
  parsed wc w bf lf = Ok (bs, ls) →
  all_newer_in w (file_path outdir <$> (bs ++ ls)) [script_file; bf; lf] = false →
  bs ++ ls = l1 ++ sig :: l2 →
  Forall (generates wc accelerate) l1 →
  generate_decl_wrapper_kw wc sig accelerate = Raise e →
  make_all wc script_file outdir bf lf accelerate w = (Raise e, w).
Proof.
  intros Hp Hstale Heq Hg He. rewrite make_all_eq, Hp, Hstale.
  by rewrite (to_write_of_first_failure wc script_file outdir accelerate
                bs ls l1 sig l2 e Heq Hg He).
Qed.

(** X13.  When the outputs are not all fresh and a BLAS routine and a
    LAPACK routine map to the same path, merging the two dicts as keyword
    arguments raises [TypeError], and no file is written. *)
Theorem shared_path_raises_type_error
    (wc : WrappersCommon) (script_file outdir bf lf : string) (accelerate : bool)
    (w : World) (bs ls : list Sig.t) (b l : Sig.t) :
  parsed wc w bf lf = Ok (bs, ls) →
  all_newer_in w (file_path outdir <$> (bs ++ ls)) [script_file; bf; lf] = false →
  Forall (generates wc accelerate) (bs ++ ls) →
  b ∈ bs → l ∈ ls → file_path outdir b = file_path outdir l →
  make_all wc script_file outdir bf lf accelerate w =
    (Raise (TypeError "dict() got multiple values for keyword argument"), w).
Proof.
  intros Hp Hstale Hg Hb Hl Hsame. rewrite make_all_eq, Hp, Hstale.
  apply Forall_app in Hg as [Hgb Hgl].
  destruct (generate_file_wrapper_ok wc script_file bs "BLAS" accelerate outdir
              (or_introl eq_refl) Hgb) as (_ & bw & _ & Hbw).
  destruct (generate_file_wrapper_ok wc script_file ls "LAPACK" accelerate outdir
              (or_intror eq_refl) Hgl) as (_ & lw & _ & Hlw).
  unfold to_write_of, dict_of_kwargs. rewrite Hbw, Hlw. cbn [mbind result_bind].
  rewrite bool_decide_eq_false_2; [done|].
  intros Hdisj.
  destruct (generate_file_wrapper_has_path wc _ _ _ _ _ _ _ Hbw Hb) as [x Hx].
  destruct (generate_file_wrapper_has_path wc _ _ _ _ _ _ _ Hlw Hl) as [y Hy].
  rewrite Hsame in Hx. by apply (map_disjoint_spec bw lw) with (file_path outdir l) x y.
Qed.

Lemma bad_signature_aborts_the_run_witness :
  make_all Sample.common Sample.script Sample.outdir Sample.blas_file Sample.lapack_file
    false Sample.bad_type = (Raise (KeyError "float64"), Sample.bad_type).
Proof.
  apply (bad_signature_aborts_the_run Sample.common Sample.script Sample.outdir
           Sample.blas_file Sample.lapack_file false Sample.bad_type
           [Sample.drot_short; Sample.dnrm2_bad] [Sample.dlamch]
           [Sample.drot_short] Sample.dnrm2_bad [Sample.dlamch]).
  - vm_compute; reflexivity.
  - vm_compute; reflexivity.
  - reflexivity.
  - apply Forall_cons_2; [|apply Forall_nil_2]. right.
    split; [by eexists; vm_compute | repeat constructor; by eexists; vm_compute].
  - vm_compute; reflexivity.
Defined.

Lemma shared_path_raises_type_error_witness :
  make_all Sample.common Sample.script Sample.outdir Sample.blas_file Sample.lapack_file
    false Sample.shared_name =
  (Raise (TypeError "dict() got multiple values for keyword argument"),
   Sample.shared_name).
Proof.
  apply (shared_path_raises_type_error Sample.common Sample.script Sample.outdir
           Sample.blas_file Sample.lapack_file false Sample.shared_name
           [Sample.drot_short] [Sample.drot_short] Sample.drot_short Sample.drot_short).
  - vm_compute; reflexivity.
  - vm_compute; reflexivity.
  - repeat (apply Forall_cons_2; [right|]); [| |apply Forall_nil_2];
      (split; [by eexists; vm_compute | repeat constructor; by eexists; vm_compute]).
  - by left.
  - by left.
  - reflexivity.
Defined.

(** X14.  A missing output file alone makes a run regenerate: when the
    signatures all generate, no path is shared by the two libraries and
    every output directory can be written to, the run writes every entry
    of the merged dict with the current time, so that every signature has
    its file afterwards, and it leaves every other file of the world as
    it was. *)
Theorem missing_output_regenerates
    (wc : WrappersCommon) (script_file outdir bf lf : string) (accelerate : bool)
    (w : World) (bs ls : list Sig.t) (dst : string) :
  parsed wc w bf lf = Ok (bs, ls) →
  dst ∈ file_path outdir <$> (bs ++ ls) →
  fs w !! dst = None →
  Forall (generates wc accelerate) (bs ++ ls) →
  (∀ b l, b ∈ bs → l ∈ ls → file_path outdir b ≠ file_path outdir l) →
  outputs_writable w (file_path outdir <$> (bs ++ ls)) →
  ∃ to_write w',
    to_write_of wc script_file outdir accelerate bs ls = Ok to_write ∧
    make_all wc script_file outdir bf lf accelerate w = (Ok tt, w') ∧
    new_writes w w' = map_to_list to_write ∧
    (∀ sig, sig ∈ bs ++ ls →
       ∃ text, to_write !! file_path outdir sig = Some text ∧
               fs w' !! file_path outdir sig =
                 Some {| mtime := clock w; content := text |}) ∧
    (∀ p, to_write !! p = None → fs w' !! p = fs w !! p).
Proof.
  intros Hp Hdst Hnone Hg Hdisj Hwr.
  destruct (to_write_of_ok wc script_file outdir accelerate bs ls Hg Hdisj)
    as (bw & lw & _ & _ & Htw).
  exists (bw ∪ lw), (wrote (bw ∪ lw) w).
  split; [done|]. split.
  { rewrite make_all_eq, Hp, (all_newer_in_missing w _ _ dst Hdst Hnone).
    rewrite Htw. apply write_files_ok. intros p Hin. apply Hwr.
    by apply (to_write_of_keys wc script_file _ _ _ _ _ _ Htw). }
  split; [apply new_writes_wrote|]. split.
  - intros sig Hin.
    destruct (to_write_of_has_path wc script_file _ _ _ _ _ sig Htw Hin) as [text Ht].
    exists text. split; [done|].
    unfold wrote. cbn [fs].
    apply lookup_union_Some_l. by rewrite lookup_fmap, Ht.
  - intros p Hnot. unfold wrote. cbn [fs].
    rewrite lookup_union_r; [done|]. by rewrite lookup_fmap, Hnot.
Qed.

Lemma missing_output_regenerates_witness :
  ∃ to_write w',
    make_all Sample.common Sample.script Sample.outdir Sample.blas_file
      Sample.lapack_file true Sample.empty_outdir = (Ok tt, w') ∧
    new_writes Sample.empty_outdir w' = map_to_list to_write ∧
    fs w' !! Sample.blas_file = fs Sample.empty_outdir !! Sample.blas_file.
Proof.
  destruct (missing_output_regenerates Sample.common Sample.script Sample.outdir
              Sample.blas_file Sample.lapack_file true Sample.empty_outdir
              [Sample.daxpy; Sample.cdotc; Sample.lsame] [Sample.dlamch]
              "/build/daxpy.c")
    as (to_write & w' & Htw & Hrun & Hnew & _ & Hother).
  - vm_compute; reflexivity.
  - by left.
  - vm_compute; reflexivity.
  - repeat first [apply Forall_nil_2 | apply Forall_cons_2].
    + right. split; [by eexists; vm_compute | repeat constructor; by eexists; vm_compute].
    + left. left. compute_done.
    + left. right. split; [reflexivity | compute_done].
    + right. split; [by eexists; vm_compute | repeat constructor; by eexists; vm_compute].
  - intros b l Hb Hl. apply list_elem_of_singleton in Hl as ->.
    repeat (apply elem_of_cons in Hb as [->|Hb]);
      [| | |by apply elem_of_nil in Hb]; by vm_compute.
  - intros dst Hdst. vm_compute in Hdst.
    repeat (apply elem_of_cons in Hdst as [->|Hdst]);
      [| | | |by apply elem_of_nil in Hdst]; compute_done.
  - exists to_write, w'. split; [exact Hrun|]. split; [exact Hnew|].
    apply Hother. vm_compute in Htw. injection Htw as <-. by vm_compute.
Defined.

(** X15.  Running [make_all] again changes no file content.  After a
    run that ended normally, whether it skipped or regenerated, and
    provided neither signature file is itself one of the output paths, a
    second run from the world the first one left ends normally too and
    every file holds what it held after the first run. *)
Theorem second_run_keeps_file_contents
    (wc : WrappersCommon) (script_file outdir bf lf : string) (accelerate : bool)
    (w w1 : World) :
  make_all wc script_file outdir bf lf accelerate w = (Ok tt, w1) →
  (∀ bs ls, parsed wc w bf lf = Ok (bs, ls) →
     (bf ∉ file_path outdir <$> (bs ++ ls)) ∧ (lf ∉ file_path outdir <$> (bs ++ ls))) →
  ∃ w2,
    make_all wc script_file outdir bf lf accelerate w1 = (Ok tt, w2) ∧
    ∀ p, content <$> fs w2 !! p = content <$> fs w1 !! p.
Proof.
  intros Hrun Hin. rewrite make_all_eq in Hrun.
  destruct (parsed wc w bf lf) as [[bs ls]|e] eqn:Hp; [|done].
  destruct (Hin bs ls eq_refl) as [Hbf Hlf].
  destruct (all_newer_in w _ _) eqn:Hfresh.
  - injection Hrun as <-.
    exists (printed up_to_date_message (printed up_to_date_message w)).
    split; [|done]. rewrite make_all_eq.
    rewrite (parsed_same_lookups wc w (printed up_to_date_message w) bf lf) by done.
    rewrite Hp. by rewrite (all_newer_in_same_fs w), Hfresh.
  - destruct (to_write_of wc script_file outdir accelerate bs ls)
      as [to_write|e] eqn:Htw; [|done].
    apply write_files_Ok_inv in Hrun as [Hwr ->].
    assert (∀ f, f ∉ file_path outdir <$> (bs ++ ls) →
              fs (wrote to_write w) !! f = fs w !! f) as Hkeep.
    { intros f Hf. unfold wrote. cbn [fs].
      rewrite lookup_union_r; [done|]. rewrite lookup_fmap.
      destruct (to_write !! f) as [x|] eqn:Hx; [|done]. exfalso. apply Hf.
      apply (to_write_of_keys wc script_file _ _ _ _ _ _ Htw). by eexists. }
    rewrite make_all_eq.
    rewrite (parsed_same_lookups wc w _ bf lf (Hkeep bf Hbf) (Hkeep lf Hlf)), Hp.
    destruct (all_newer_in (wrote to_write w) _ _).
    + eexists. split; [done|]. done.
    + rewrite Htw, (write_files_ok to_write (wrote to_write w)) by done.
      eexists. split; [done|].
      intros p. unfold wrote. cbn [fs clock].
      rewrite !lookup_union, !lookup_fmap.
      by destruct (to_write !! p), (fs w !! p).
Qed.

Lemma second_run_keeps_file_contents_witness :
  ∃ w2,
    make_all Sample.common Sample.script Sample.outdir Sample.blas_file
      Sample.lapack_file false
      (make_all Sample.common Sample.script Sample.outdir Sample.blas_file
         Sample.lapack_file false Sample.stale).2 = (Ok tt, w2) ∧
    content <$> fs w2 !! "/build/daxpy.c" =
    content <$> fs (make_all Sample.common Sample.script Sample.outdir Sample.blas_file
                      Sample.lapack_file false Sample.stale).2 !! "/build/daxpy.c".
Proof.
  destruct (second_run_keeps_file_contents Sample.common Sample.script Sample.outdir
              Sample.blas_file Sample.lapack_file false Sample.stale
              (make_all Sample.common Sample.script Sample.outdir Sample.blas_file
                 Sample.lapack_file false Sample.stale).2)
    as (w2 & Hrun & Hsame).
  - vm_compute; reflexivity.
  - intros bs ls Hp. vm_compute in Hp. injection Hp as <- <-.
    split; compute_done.
  - exists w2. split; [exact Hrun | apply Hsame].
Defined.



(** X17.  When the outputs are not all fresh and the directory of some
    output path is missing or cannot be written to, the I/O error of
    [write_files] reaches the caller of [make_all]: the run ends with
    [OSError] for an output path whose directory is not writable, prints
    nothing and touches no file other than output files. *)
Theorem unwritable_output_directory_raises
    (wc : WrappersCommon) (script_file outdir bf lf : string) (accelerate : bool)
    (w : World) (bs ls : list Sig.t) (sig : Sig.t) :
  parsed wc w bf lf = Ok (bs, ls) →
  all_newer_in w (file_path outdir <$> (bs ++ ls)) [script_file; bf; lf] = false →
  Forall (generates wc accelerate) (bs ++ ls) →
  (∀ b l, b ∈ bs → l ∈ ls → file_path outdir b ≠ file_path outdir l) →
  sig ∈ bs ++ ls →
  dirname (file_path outdir sig) ∉ dirs w →
  ∃ path w',
    make_all wc script_file outdir bf lf accelerate w = (Raise (OSError path), w') ∧
    path ∈ file_path outdir <$> (bs ++ ls) ∧
    (dirname path ∉ dirs w) ∧
    stdout w' = stdout w ∧
    (∀ q, q ∉ file_path outdir <$> (bs ++ ls) → fs w' !! q = fs w !! q).
Proof.
  intros Hp Hstale Hg Hdisj Hin Hd.
  destruct (to_write_of_ok wc script_file outdir accelerate bs ls Hg Hdisj)
    as (bw & lw & _ & _ & Htw).
  destruct (write_files_fails (bw ∪ lw) w (file_path outdir sig))
    as (path & w' & Hrun & Hsome & Hnd & Hout & Hfs).
  { by apply (to_write_of_has_path wc script_file _ _ _ _ _ sig Htw). }
  { done. }
  exists path, w'. split.
  { by rewrite make_all_eq, Hp, Hstale, Htw. }
  split; [by apply (to_write_of_keys wc script_file _ _ _ _ _ _ Htw)|].
  split; [done|]. split; [done|].
  intros q Hq. apply Hfs.
  destruct ((bw ∪ lw) !! q) as [x|] eqn:Hx; [|done]. exfalso. apply Hq.
  apply (to_write_of_keys wc script_file _ _ _ _ _ _ Htw). by eexists.
Qed.

Lemma unwritable_output_directory_raises_witness :
  ∃ path w',
    make_all Sample.common Sample.script "/no/such/dir" Sample.blas_file
      Sample.lapack_file false Sample.empty_outdir = (Raise (OSError path), w') ∧
    stdout w' = stdout Sample.empty_outdir.
Proof.
  destruct (unwritable_output_directory_raises Sample.common Sample.script
              "/no/such/dir" Sample.blas_file Sample.lapack_file false Sample.empty_outdir
              [Sample.daxpy; Sample.cdotc; Sample.lsame] [Sample.dlamch] Sample.daxpy)
    as (path & w' & Hrun & _ & _ & Hout & _).
  - vm_compute; reflexivity.
  - vm_compute; reflexivity.
  - repeat first [apply Forall_nil_2 | apply Forall_cons_2].
    + right. split; [by eexists; vm_compute | repeat constructor; by eexists; vm_compute].
    + left. left. compute_done.
    + right. split; [by eexists; vm_compute | repeat constructor; by eexists; vm_compute].
    + right. split; [by eexists; vm_compute | repeat constructor; by eexists; vm_compute].
  - intros b l Hb Hl. apply list_elem_of_singleton in Hl as ->.
    repeat (apply elem_of_cons in Hb as [->|Hb]);
      [| | |by apply elem_of_nil in Hb]; by vm_compute.
  - by left.
  - compute_done.
  - exists path, w'. split; [exact Hrun | exact Hout].
Defined.

(** ** Facts about the generator over the store *)

Section StoreFacts.
Import PyStr.

Context (wc : WrappersCommon) (script_file : string) (g : Globals).

Lemma st_bind_Ok {A B : Type} (m : St A) (k : A → St B) (h h' : list obj) (a : A) :
  m h = (Ok a, h') → (m ≫= k) h = k a h'.
Proof. unfold mbind, St_bind. by intros ->. Qed.

Lemma st_bind_Raise {A B : Type} (m : St A) (k : A → St B) (h h' : list obj) (e : exn) :
  m h = (Raise e, h') → (m ≫= k) h = (Raise e, h').
Proof. unfold mbind, St_bind. by intros ->. Qed.

Lemma load_list_eq (h : list obj) (r : nat) (items : list string) :
  h !! r = Some (OList items) → load_list r h = (Ok items, h).
Proof. unfold load_list. by intros ->. Qed.

Lemma load_set_eq (h : list obj) (r : nat) (members : gset string) :
  h !! r = Some (OSet members) → load_set r h = (Ok members, h).
Proof. unfold load_set. by intros ->. Qed.

Lemma load_dict_eq (h : list obj) (r : nat) (entries : gmap string string) :
  h !! r = Some (ODict entries) → load_dict r h = (Ok entries, h).
Proof. unfold load_dict. by intros ->. Qed.

Lemma lookup_extended (h new : list obj) (r : nat) (o : obj) :
  h !! r = Some o → (h ++ new) !! r = Some o.
Proof. apply lookup_app_l_Some. Qed.

Lemma lookup_allocated (h : list obj) (o : obj) : (h ++ [o]) !! length h = Some o.
Proof. by rewrite list_lookup_middle. Qed.

Lemma globals_hold_extended (h new : list obj) :
  globals_hold wc g h → globals_hold wc g (h ++ new).
Proof. intros (H1 & H2 & H3). repeat split; by apply lookup_extended. Qed.

Lemma sig_at_extended (h new : list obj) (r : nat) (sig : Sig.t) :
  sig_at h r sig → sig_at (h ++ new) r sig.
Proof.
  intros (an & at_ & H1 & H2 & H3). exists an, at_.
  repeat split; by apply lookup_extended.
Qed.

Lemma getitems_st_eq (h : list obj) (keys : list string) :
  globals_hold wc g h →
  getitems_st g keys h = (getitems (C_TYPES wc) keys, h).
Proof.
  intros (Hc & _ & _). induction keys as [|t rest IH]; [done|].
  cbn [getitems_st getitems].
  rewrite (st_bind_Ok _ _ _ _ _ (load_dict_eq _ _ _ Hc)).
  unfold lift_st at 1. unfold mbind at 1, St_bind at 1.
  destruct (getitem (C_TYPES wc) t) as [v|e]; [|done].
  cbn [mbind result_bind]. unfold mbind at 1, St_bind at 1. rewrite IH.
  by destruct (getitems (C_TYPES wc) rest).
Qed.

(** [generate_decl_wrapper] over the store returns what the function of
    the values returns, and only adds objects to the store. *)
Lemma generate_decl_wrapper_st_eq (h : list obj) name return_type
    (argnames_ref argtypes_ref : nat) (argnames argtypes : list string) accelerate :
  globals_hold wc g h →
  h !! argnames_ref = Some (OList argnames) →
  h !! argtypes_ref = Some (OList argtypes) →
  ∃ new,
    generate_decl_wrapper_st wc g name return_type argnames_ref argtypes_ref accelerate h =
    (generate_decl_wrapper wc name return_type argnames argtypes accelerate, h ++ new).
Proof.
  intros Hg Han Hat. pose proof Hg as (Hc & Hw & Hl).
  unfold generate_decl_wrapper_st, generate_decl_wrapper.
  rewrite (st_bind_Ok _ _ _ _ _ (load_set_eq _ _ _ Hw)).
  case_bool_decide; [exists []; by rewrite app_nil_r|].
  assert ((if accelerate
           then legacy ← load_set (USE_OLD_ACCELERATE_ref g);
                mret (bool_decide (name ∈ legacy))
           else mret false) h =
          (Ok (accelerate && bool_decide (name ∈ USE_OLD_ACCELERATE wc)), h)) as Hskip.
  { destruct accelerate; [|done].
    by rewrite (st_bind_Ok _ _ _ _ _ (load_set_eq _ _ _ Hl)). }
  rewrite (st_bind_Ok _ _ _ _ _ Hskip).
  destruct (accelerate && bool_decide (name ∈ USE_OLD_ACCELERATE wc));
    [exists []; by rewrite app_nil_r|].
  rewrite (st_bind_Ok _ _ _ _ _ (load_dict_eq _ _ _ Hc)).
  unfold lift_st at 1. unfold mbind at 1, St_bind at 1.
  destruct (getitem (C_TYPES wc) return_type) as [c_ret|e];
    [|exists []; by rewrite app_nil_r].
  cbn [mbind result_bind].
  rewrite (st_bind_Ok _ _ _ _ _ (load_list_eq _ _ _ Hat)).
  unfold mbind at 1, St_bind at 1. rewrite (getitems_st_eq h argtypes Hg).
  destruct (getitems (C_TYPES wc) argtypes) as [cs|e];
    [|exists []; by rewrite app_nil_r].
  exists [OList cs].
  unfold mbind at 1, St_bind at 1, alloc at 1.
  rewrite (st_bind_Ok _ _ _ _ _ (load_list_eq _ _ _ (lookup_allocated h (OList cs)))).
  rewrite (st_bind_Ok _ _ _ _ _ (load_list_eq _ _ _ (lookup_extended _ [OList cs] _ _ Han))).
  rewrite (st_bind_Ok _ _ _ _ _ (load_list_eq _ _ _ (lookup_extended _ [OList cs] _ _ Han))).
  by destruct (get_blas_macro_and_name wc name accelerate).
Qed.

End StoreFacts.

Section StoreLoopFacts.
Import PyStr.

Context (wc : WrappersCommon) (script_file : string) (g : Globals).

Lemma load_sig_eq (h : list obj) (r : nat) name return_type (an at_ : nat) :
  h !! r = Some (OSig name return_type an at_) →
  load_sig r h = (Ok (name, return_type, an, at_), h).
Proof. unfold load_sig. by intros ->. Qed.

Lemma setitem_eq (h : list obj) (r : nat) (entries : gmap string string) key value :
  h !! r = Some (ODict entries) →
  setitem r key value h = (Ok tt, <[r := ODict (<[key := value]> entries)]> h).
Proof. unfold setitem. by intros ->. Qed.

Lemma prefix_insert_later (h0 h : list obj) (r : nat) (o : obj) :
  h0 `prefix_of` h → length h0 ≤ r → h0 `prefix_of` <[r := o]> h.
Proof.
  intros [k ->] Hr. exists (<[r - length h0 := o]> k).
  by rewrite insert_app_r_alt.
Qed.

(** The loop over the store ends as the loop over the values does, with
    the same dict under [wrappers], and leaves every object that was in
    the store before the call as it was. *)
Lemma generate_file_wrapper_st_loop_eq (h0 : list obj) (pre_ref : option nat)
    (preamble : option (list string)) (wrappers : nat) accelerate outdir
    (refs : list nat) (sigs : list Sig.t) :
  globals_hold wc g h0 →
  Forall2 (sig_at h0) refs sigs →
  length h0 ≤ wrappers →
  ∀ (h : list obj) (m : gmap string string),
    h0 `prefix_of` h →
    h !! wrappers = Some (ODict m) →
    match pre_ref with
    | Some p => ∃ pre, preamble = Some pre ∧ h !! p = Some (OList pre) ∧ p ≠ wrappers
    | None => preamble = None
    end →
    ∃ r h',
      generate_file_wrapper_st_loop wc g pre_ref wrappers accelerate outdir refs h = (r, h') ∧
      h0 `prefix_of` h' ∧
      match generate_file_wrapper_loop wc preamble accelerate outdir sigs m with
      | Ok m' => r = Ok tt ∧ h' !! wrappers = Some (ODict m')
      | Raise e => r = Raise e
      end.
Proof.
  intros Hg Hsigs Hw. induction Hsigs as [|ref sig refs sigs Hsig _ IH];
    intros h m Hpre Hdict Hp.
  - exists (Ok tt), h. by cbn.
  - destruct Hsig as (an & at_ & Hs & Han & Hat).
    cbn [generate_file_wrapper_st_loop generate_file_wrapper_loop].
    rewrite (st_bind_Ok _ _ _ _ _
               (load_sig_eq h ref _ _ _ _ (prefix_lookup_Some _ _ _ _ Hs Hpre))).
    destruct pre_ref as [p|].
    2: { subst preamble. exists (Raise (UnboundLocalError "preamble")), h. by cbn. }
    destruct Hp as (pre & -> & Hplist & Hne).
    unfold mbind at 1, St_bind at 1, mret at 1, St_ret at 1.
    destruct (generate_decl_wrapper_st_eq wc g h (Sig.name sig) (Sig.return_type sig)
                an at_ (Sig.argnames sig) (Sig.argtypes sig) accelerate)
      as [new Hdecl].
    { destruct Hpre as [k ->]. by apply globals_hold_extended. }
    { by apply (prefix_lookup_Some h0). }
    { by apply (prefix_lookup_Some h0). }
    unfold file_text. cbn [mbind result_bind]. unfold generate_decl_wrapper_kw.
    destruct (generate_decl_wrapper wc (Sig.name sig) (Sig.return_type sig)
                (Sig.argnames sig) (Sig.argtypes sig) accelerate) as [decl|e].
    2: { rewrite (st_bind_Raise _ _ _ _ _ Hdecl). exists (Raise e), (h ++ new).
         split; [done|]. split; [|done]. by apply prefix_app_r. }
    rewrite (st_bind_Ok _ _ _ _ _ Hdecl).
    cbn [mbind result_bind].
    unfold mbind at 1, St_bind at 1, alloc at 1.
    set (h1 := (h ++ new) ++ [OList [decl; CPP_GUARD_END wc]]).
    assert (h1 !! p = Some (OList pre)) as Hp1 by (by do 2 apply lookup_extended).
    rewrite (st_bind_Ok _ _ _ _ _ (load_list_eq _ _ _ Hp1)).
    assert (h1 !! length (h ++ new) = Some (OList [decl; CPP_GUARD_END wc])) as Ht1
      by apply lookup_allocated.
    rewrite (st_bind_Ok _ _ _ _ _ (load_list_eq _ _ _ Ht1)).
    unfold mbind at 1, St_bind at 1, alloc at 1.
    set (h2 := h1 ++ [OList (pre ++ [decl; CPP_GUARD_END wc])]).
    assert (h2 !! length h1 = Some (OList (pre ++ [decl; CPP_GUARD_END wc]))) as Ht2
      by apply lookup_allocated.
    rewrite (st_bind_Ok _ _ _ _ _ (load_list_eq _ _ _ Ht2)).
    assert (h2 !! wrappers = Some (ODict m)) as Hd2 by (by do 3 apply lookup_extended).
    rewrite (st_bind_Ok _ _ _ _ _ (setitem_eq _ _ _ _ _ Hd2)).
    apply IH.
    + apply prefix_insert_later; [|done]. by do 3 apply prefix_app_r.
    + apply list_lookup_insert_eq. by apply lookup_lt_Some in Hd2.
    + exists pre. split; [done|]. split; [|done].
      rewrite list_lookup_insert_ne by done. by apply lookup_extended.
Qed.

(** Lines 81-87 from any store that extends the one of the call. *)
Lemma generate_file_wrapper_st_tail (h hp : list obj) (pre_ref : option nat)
    (preamble : option (list string)) accelerate outdir
    (refs : list nat) (sigs : list Sig.t) :
  globals_hold wc g h →
  Forall2 (sig_at h) refs sigs →
  h `prefix_of` hp →
  match pre_ref with
  | Some p => ∃ pre, preamble = Some pre ∧ hp !! p = Some (OList pre)
  | None => preamble = None
  end →
  h `prefix_of`
    ((wrappers ← alloc (ODict ∅);
      _ ← generate_file_wrapper_st_loop wc g pre_ref wrappers accelerate outdir refs;
      mret wrappers) hp).2 ∧
  dict_of
    ((wrappers ← alloc (ODict ∅);
      _ ← generate_file_wrapper_st_loop wc g pre_ref wrappers accelerate outdir refs;
      mret wrappers) hp) =
  generate_file_wrapper_loop wc preamble accelerate outdir sigs ∅.
Proof.
  intros Hg Hsigs Hpre Hp.
  unfold mbind at 1 3, St_bind at 1 3, alloc.
  destruct (generate_file_wrapper_st_loop_eq h pre_ref preamble (length hp)
              accelerate outdir refs sigs Hg Hsigs (prefix_length _ _ Hpre)
              (hp ++ [ODict ∅]) ∅) as (r & h' & Hrun & Hext & Hres).
  - by apply prefix_app_r.
  - apply lookup_allocated.
  - destruct pre_ref as [p|]; [|done]. destruct Hp as (pre & -> & Hl).
    exists pre. split; [done|]. split; [by apply lookup_extended|].
    apply lookup_lt_Some in Hl. lia.
  - unfold mbind, St_bind. rewrite Hrun.
    destruct (generate_file_wrapper_loop wc preamble accelerate outdir sigs ∅) as [m'|e].
    + destruct Hres as [-> Hd]. cbn. by rewrite Hd.
    + subst r. by cbn.
Qed.

(** [generate_file_wrapper] over the store returns a dict that holds what
    the function of the values returns, and only adds objects. *)
Lemma generate_file_wrapper_st_eq (h : list obj) (refs : list nat) (sigs : list Sig.t)
    lib_name accelerate outdir :
  globals_hold wc g h →
  Forall2 (sig_at h) refs sigs →
  h `prefix_of`
    (generate_file_wrapper_st wc script_file g refs lib_name accelerate outdir h).2 ∧
  dict_of (generate_file_wrapper_st wc script_file g refs lib_name accelerate outdir h) =
    generate_file_wrapper wc script_file sigs lib_name accelerate outdir.
Proof.
  intros Hg Hsigs. unfold generate_file_wrapper_st, generate_file_wrapper, preamble_of.
  unfold mbind at 1 4, St_bind at 1 4.
  destruct (bool_decide (lib_name = "BLAS")).
  { unfold mbind at 1 4, St_bind at 1 4, alloc at 1 3, mret at 1 3, St_ret at 1 3.
    apply generate_file_wrapper_st_tail; [done|done|by apply prefix_app_r|].
    eexists. split; [done|]. apply lookup_allocated. }
  destruct (bool_decide (lib_name = "LAPACK")).
  { unfold mbind at 1 4, St_bind at 1 4, alloc at 1 3, mret at 1 3, St_ret at 1 3.
    apply generate_file_wrapper_st_tail; [done|done|by apply prefix_app_r|].
    eexists. split; [done|]. apply lookup_allocated. }
  unfold mret at 1 3, St_ret at 1 3.
  by apply generate_file_wrapper_st_tail.
Qed.

End StoreLoopFacts.

(** C9.  [generate_decl_wrapper] and [generate_file_wrapper] are
    deterministic.  Run over the store of the interpreter's objects, from
    any two stores in which the containers of [_wrappers_common] hold the
    same values and the references of the call denote the same signatures,
    [generate_file_wrapper] returns dicts with the same entries (or raises
    the same exception), namely what the function of the signature values,
    the library name, the accelerate flag and the output directory gives;
    a run changes no object that existed before it, so a second run from
    the store the first one left returns the same entries again.  The same
    holds for a single call of [generate_decl_wrapper]. *)
Theorem generators_are_deterministic
    (wc : WrappersCommon) (script_file : string) (g : Globals)
    (refs : list nat) (sigs : list Sig.t) (lib_name : string) (accelerate : bool)
    (outdir : string) (h1 h2 : list obj) :
  globals_hold wc g h1 → globals_hold wc g h2 →
  Forall2 (sig_at h1) refs sigs → Forall2 (sig_at h2) refs sigs →
  let run := generate_file_wrapper_st wc script_file g refs lib_name accelerate outdir in
  dict_of (run h1) = dict_of (run h2) ∧
  dict_of (run (run h1).2) = dict_of (run h1) ∧
  dict_of (run h1) = generate_file_wrapper wc script_file sigs lib_name accelerate outdir ∧
  h1 `prefix_of` (run h1).2 ∧
  ∀ (name return_type : string) (argnames_ref argtypes_ref : nat)
    (argnames argtypes : list string),
    h1 !! argnames_ref = Some (OList argnames) →
    h2 !! argnames_ref = Some (OList argnames) →
    h1 !! argtypes_ref = Some (OList argtypes) →
    h2 !! argtypes_ref = Some (OList argtypes) →
    let call := generate_decl_wrapper_st wc g name return_type
                  argnames_ref argtypes_ref accelerate in
    (call h1).1 = (call h2).1 ∧
    (call h1).1 = generate_decl_wrapper wc name return_type argnames argtypes accelerate ∧
    h1 `prefix_of` (call h1).2.
Proof.
  intros Hg1 Hg2 Hs1 Hs2. cbv zeta.
  destruct (generate_file_wrapper_st_eq wc script_file g h1 refs sigs lib_name
              accelerate outdir Hg1 Hs1) as [Hext1 Heq1].
  destruct (generate_file_wrapper_st_eq wc script_file g h2 refs sigs lib_name
              accelerate outdir Hg2 Hs2) as [_ Heq2].
  split; [congruence|]. split.
  { destruct Hext1 as [new Hnew].
    destruct (generate_file_wrapper_st_eq wc script_file g
                (generate_file_wrapper_st wc script_file g refs lib_name
                   accelerate outdir h1).2 refs sigs lib_name accelerate outdir)
      as [_ Heq3].
    - rewrite Hnew. by apply globals_hold_extended.
    - rewrite Hnew. clear -Hs1. induction Hs1; constructor; [|done].
      by apply sig_at_extended.
    - congruence. }
  split; [done|]. split; [done|].
  intros name return_type an at_ argnames argtypes Han1 Han2 Hat1 Hat2.
  destruct (generate_decl_wrapper_st_eq wc g h1 name return_type an at_
              argnames argtypes accelerate Hg1 Han1 Hat1) as [new1 Hc1].
  destruct (generate_decl_wrapper_st_eq wc g h2 name return_type an at_
              argnames argtypes accelerate Hg2 Han2 Hat2) as [new2 Hc2].
  rewrite Hc1, Hc2. split; [done|]. split; [done|]. by apply prefix_app_r.
Qed.

Lemma generators_are_deterministic_witness :
  globals_hold Sample.common Sample.globals Sample.store ∧
  globals_hold Sample.common Sample.globals Sample.store_later ∧
  Forall2 (sig_at Sample.store) [5; 8] [Sample.daxpy; Sample.cdotc] ∧
  Forall2 (sig_at Sample.store_later) [5; 8] [Sample.daxpy; Sample.cdotc] ∧
  dict_of (generate_file_wrapper_st Sample.common Sample.script Sample.globals
             [5; 8] "BLAS" false "/build" Sample.store) =
  dict_of (generate_file_wrapper_st Sample.common Sample.script Sample.globals
             [5; 8] "BLAS" false "/build" Sample.store_later).
Proof.
  assert (globals_hold Sample.common Sample.globals Sample.store) as Hg1
    by (repeat split; reflexivity).
  assert (globals_hold Sample.common Sample.globals Sample.store_later) as Hg2
    by (repeat split; reflexivity).
  assert (Forall2 (sig_at Sample.store) [5; 8] [Sample.daxpy; Sample.cdotc]) as Hs1.
  { apply Forall2_cons_2; [exists 3, 4; by repeat split|].
    apply Forall2_cons_2; [exists 6, 7; by repeat split|]. apply Forall2_nil_2. }
  assert (Forall2 (sig_at Sample.store_later) [5; 8] [Sample.daxpy; Sample.cdotc]) as Hs2.
  { apply Forall2_cons_2; [exists 3, 4; by repeat split|].
    apply Forall2_cons_2; [exists 6, 7; by repeat split|]. apply Forall2_nil_2. }
  split; [exact Hg1|]. split; [exact Hg2|]. split; [exact Hs1|]. split; [exact Hs2|].
  exact (proj1 (generators_are_deterministic Sample.common Sample.script Sample.globals
                  [5; 8] [Sample.daxpy; Sample.cdotc] "BLAS" false "/build"
                  Sample.store Sample.store_later Hg1 Hg2 Hs1 Hs2)).
Defined.
